(** * Conversion table of [docs/plugins/conversion_table.py]

    The module declares the dataclass [Row] and the literal list [table]
    of 190 rows documenting which input types each field type accepts.
    This development embeds both, together with the read-only views the
    reference documentation describes over them, and states the
    properties of the catalogue as theorems about [table]. *)

From Stdlib Require Import List String Ascii ZArith PArith Bool Lia.
From Stdlib.Strings Require Import Byte.
Import ListNotations.
Open Scope string_scope.
Open Scope Z_scope.
Set Warnings "-register-all".

(** ** Python objects and values appearing in the table *)

(** The double-quote character, for string literals that contain it. *)
Definition dquote : string := String (ascii_of_nat 34) EmptyString.

(** [field_type] and [input_type] hold whatever object the author wrote:
    a named object ([str], [typing.NamedTuple], the builtin [isinstance]),
    a string placeholder (['Array'], ['Object'], ['-']) or [None].  Each
    name used in the source is bound to a distinct object, so equality of
    names is equality of objects. *)
Inductive pyobj : Type :=
| PyName (qualname : string)
| PyStr (s : string)
| PyNone.

(** A Python [float]: the exact rational value of the double, or one of
    the two special values the table uses. *)
Inductive pyfloat : Type :=
| FFinite (num : Z) (den : positive)
| FPosInf
| FNan.

(** Example values.  [VDecimal n d] is [Decimal(x)] for the number [x]
    of exact value [n/d]; [VDatetime] lists year, month, day, hour,
    minute, second, microsecond (the last four default to 0). *)
Inductive pyval : Type :=
| VBool (b : bool)
| VInt (z : Z)
| VFloat (f : pyfloat)
| VDecimal (num : Z) (den : positive)
| VStr (s : string)
| VBytes (b : list byte)
| VByteArray (b : list byte)
| VDate (year month day : Z)
| VDatetime (year month day hour minute second microsecond : Z)
| VTuple (items : list pyval).

(** [b * n] on a bytes object. *)
Definition bytes_mul (b : list byte) (n : nat) : list byte :=
  List.concat (repeat b n).

(** ** The dataclass [Row] *)

(** The [Literal] annotations of [mode] and [input_format] are not
    enforced by the generated constructor: both fields hold any string. *)
Record Row : Type := mkRow {
  field_type : pyobj;
  input_type : pyobj;
  mode : string;
  input_format : string;
  condition : option string;
  valid_examples : option (list pyval);
  invalid_examples : option (list pyval);
  core_schemas : option (list pyobj)
}.

(** ** The table *)

(** Floats are written as the exact value of the double the literal
    denotes ([2.1] is 4728779608739021 / 2^51).  The literal
    [2.2250738585072011e308] in row 9 exceeds the largest finite double
    and denotes [inf]. *)
Definition table : list Row := [
  (* 0: source lines 34-40 *)
  {| field_type := PyName "str";
     input_type := PyName "str";
     mode := "Strict";
     input_format := "Python & JSON";
     condition := None;
     valid_examples := None;
     invalid_examples := None;
     core_schemas := Some [PyName "core_schema.StringSchema"] |};
  (* 1: source lines 41-50 *)
  {| field_type := PyName "str";
     input_type := PyName "bytes";
     mode := "Lax";
     input_format := "Python";
     condition := Some "Assumes UTF-8, error on unicode decoding error.";
     valid_examples := Some [VBytes (list_byte_of_string "this is bytes")];
     invalid_examples := Some [VBytes ([x81])];
     core_schemas := Some [PyName "core_schema.StringSchema"] |};
  (* 2: source lines 51-60 *)
  {| field_type := PyName "str";
     input_type := PyName "bytearray";
     mode := "Lax";
     input_format := "Python";
     condition := Some "Assumes UTF-8, error on unicode decoding error.";
     valid_examples := Some [VByteArray (bytes_mul (list_byte_of_string "this is bytearray") 3)];
     invalid_examples := Some [VByteArray (bytes_mul ([x81]) 5)];
     core_schemas := Some [PyName "core_schema.StringSchema"] |};
  (* 3: source lines 61-67 *)
  {| field_type := PyName "bytes";
     input_type := PyName "bytes";
     mode := "Strict";
     input_format := "Python";
     condition := None;
     valid_examples := None;
     invalid_examples := None;
     core_schemas := Some [PyName "core_schema.BytesSchema"] |};
  (* 4: source lines 68-75 *)
  {| field_type := PyName "bytes";
     input_type := PyName "str";
     mode := "Strict";
     input_format := "JSON";
     condition := None;
     valid_examples := Some [VStr "foo"];
     invalid_examples := None;
     core_schemas := Some [PyName "core_schema.BytesSchema"] |};
  (* 5: source lines 76-83 *)
  {| field_type := PyName "bytes";
     input_type := PyName "str";
     mode := "Lax";
     input_format := "Python";
     condition := None;
     valid_examples := Some [VStr "foo"];
     invalid_examples := None;
     core_schemas := Some [PyName "core_schema.BytesSchema"] |};
  (* 6: source lines 84-91 *)
  {| field_type := PyName "bytes";
     input_type := PyName "bytearray";
     mode := "Lax";
     input_format := "Python";
     condition := None;
     valid_examples := Some [VByteArray (bytes_mul (list_byte_of_string "this is bytearray") 3)];
     invalid_examples := None;
     core_schemas := Some [PyName "core_schema.BytesSchema"] |};
  (* 7: source lines 92-100 *)
  {| field_type := PyName "int";
     input_type := PyName "int";
     mode := "Strict";
     input_format := "Python & JSON";
     condition := Some "Max abs value `2^64` - `i64` is used internally, `bool` explicitly forbidden.";
     valid_examples := None;
     invalid_examples := Some [VInt (2 ^ 64);
         VBool true;
         VBool false];
     core_schemas := Some [PyName "core_schema.IntSchema"] |};
  (* 8: source lines 101-108 *)
  {| field_type := PyName "int";
     input_type := PyName "int";
     mode := "Lax";
     input_format := "Python & JSON";
     condition := Some "`i64`. Limits `numbers > (2 ^ 63) - 1` to `(2 ^ 63) - 1`.";
     valid_examples := None;
     invalid_examples := None;
     core_schemas := Some [PyName "core_schema.IntSchema"] |};
  (* 9: source lines 109-118 *)
  {| field_type := PyName "int";
     input_type := PyName "float";
     mode := "Lax";
     input_format := "Python & JSON";
     condition := Some "`i64`, Must be exact int, e.g. `val % 1 == 0`, raises error for `nan`, `inf`.";
     valid_examples := Some [VFloat (FFinite 2 1)] (* 2.0 *);
     invalid_examples := Some [VFloat (FFinite 4728779608739021 2251799813685248); (* 2.1 *)
         VFloat (FPosInf); (* 2.2250738585072011e308 *)
         VFloat (FNan); (* float('nan') *)
         VFloat (FPosInf)] (* float('inf') *);
     core_schemas := Some [PyName "core_schema.IntSchema"] |};
  (* 10: source lines 119-128 *)
  {| field_type := PyName "int";
     input_type := PyName "Decimal";
     mode := "Lax";
     input_format := "Python";
     condition := Some "`i64`, Must be exact int, e.g. `val % 1 == 0`.";
     valid_examples := Some [VDecimal 2 1] (* Decimal(2.0) *);
     invalid_examples := Some [VDecimal 4728779608739021 2251799813685248] (* Decimal(2.1) *);
     core_schemas := Some [PyName "core_schema.IntSchema"] |};
  (* 11: source lines 129-136 *)
  {| field_type := PyName "int";
     input_type := PyName "bool";
     mode := "Lax";
     input_format := "Python & JSON";
     condition := None;
     valid_examples := Some [VBool true;
         VBool false];
     invalid_examples := None;
     core_schemas := Some [PyName "core_schema.IntSchema"] |};
  (* 12: source lines 137-146 *)
  {| field_type := PyName "int";
     input_type := PyName "str";
     mode := "Lax";
     input_format := "Python & JSON";
     condition := Some "`i64`, Must be numeric only, e.g. `[0-9]+`.";
     valid_examples := Some [VStr "123"];
     invalid_examples := Some [VStr "test";
         VStr "123x"];
     core_schemas := Some [PyName "core_schema.IntSchema"] |};
  (* 13: source lines 147-156 *)
  {| field_type := PyName "int";
     input_type := PyName "bytes";
     mode := "Lax";
     input_format := "Python";
     condition := Some "`i64`, Must be numeric only, e.g. `[0-9]+`.";
     valid_examples := Some [VBytes (list_byte_of_string "123")];
     invalid_examples := Some [VBytes (list_byte_of_string "test");
         VBytes (list_byte_of_string "123x")];
     core_schemas := Some [PyName "core_schema.IntSchema"] |};
  (* 14: source lines 157-165 *)
  {| field_type := PyName "float";
     input_type := PyName "float";
     mode := "Strict";
     input_format := "Python & JSON";
     condition := Some "`bool` explicitly forbidden.";
     valid_examples := None;
     invalid_examples := Some [VBool true;
         VBool false];
     core_schemas := Some [PyName "core_schema.FloatSchema"] |};
  (* 15: source lines 166-173 *)
  {| field_type := PyName "float";
     input_type := PyName "int";
     mode := "Strict";
     input_format := "Python & JSON";
     condition := None;
     valid_examples := Some [VInt 123];
     invalid_examples := None;
     core_schemas := Some [PyName "core_schema.FloatSchema"] |};
  (* 16: source lines 174-183 *)
  {| field_type := PyName "float";
     input_type := PyName "str";
     mode := "Lax";
     input_format := "Python & JSON";
     condition := Some "Must match `[0-9]+(\.[0-9]+)?`.";
     valid_examples := Some [VStr "3.141"];
     invalid_examples := Some [VStr "test";
         VStr "3.141x"];
     core_schemas := Some [PyName "core_schema.FloatSchema"] |};
  (* 17: source lines 184-193 *)
  {| field_type := PyName "float";
     input_type := PyName "bytes";
     mode := "Lax";
     input_format := "Python";
     condition := Some "Must match `[0-9]+(\.[0-9]+)?`.";
     valid_examples := Some [VBytes (list_byte_of_string "3.141")];
     invalid_examples := Some [VBytes (list_byte_of_string "test");
         VBytes (list_byte_of_string "3.141x")];
     core_schemas := Some [PyName "core_schema.FloatSchema"] |};
  (* 18: source lines 194-201 *)
  {| field_type := PyName "float";
     input_type := PyName "Decimal";
     mode := "Lax";
     input_format := "Python";
     condition := None;
     valid_examples := Some [VDecimal 7 2] (* Decimal(3.5) *);
     invalid_examples := None;
     core_schemas := Some [PyName "core_schema.FloatSchema"] |};
  (* 19: source lines 202-209 *)
  {| field_type := PyName "float";
     input_type := PyName "bool";
     mode := "Lax";
     input_format := "Python & JSON";
     condition := None;
     valid_examples := Some [VBool true;
         VBool false];
     invalid_examples := None;
     core_schemas := Some [PyName "core_schema.FloatSchema"] |};
  (* 20: source lines 210-217 *)
  {| field_type := PyName "bool";
     input_type := PyName "bool";
     mode := "Strict";
     input_format := "Python & JSON";
     condition := None;
     valid_examples := Some [VBool true;
         VBool false];
     invalid_examples := None;
     core_schemas := Some [PyName "core_schema.BoolSchema"] |};
  (* 21: source lines 218-227 *)
  {| field_type := PyName "bool";
     input_type := PyName "int";
     mode := "Lax";
     input_format := "Python & JSON";
     condition := Some "Allowed values: `0, 1`.";
     valid_examples := Some [VInt 0;
         VInt 1];
     invalid_examples := Some [VInt 2;
         VInt 100];
     core_schemas := Some [PyName "core_schema.BoolSchema"] |};
  (* 22: source lines 228-237 *)
  {| field_type := PyName "bool";
     input_type := PyName "float";
     mode := "Lax";
     input_format := "Python & JSON";
     condition := Some "Allowed values: `0.0, 1.0`.";
     valid_examples := Some [VFloat (FFinite 0 1); (* 0.0 *)
         VFloat (FFinite 1 1)] (* 1.0 *);
     invalid_examples := Some [VFloat (FFinite 2 1); (* 2.0 *)
         VFloat (FFinite 100 1)] (* 100.0 *);
     core_schemas := Some [PyName "core_schema.BoolSchema"] |};
  (* 23: source lines 238-247 *)
  {| field_type := PyName "bool";
     input_type := PyName "Decimal";
     mode := "Lax";
     input_format := "Python";
     condition := Some "Allowed values: `Decimal(0), Decimal(1)`.";
     valid_examples := Some [VDecimal 0 1; (* Decimal(0) *)
         VDecimal 1 1] (* Decimal(1) *);
     invalid_examples := Some [VDecimal 2 1; (* Decimal(2) *)
         VDecimal 100 1] (* Decimal(100) *);
     core_schemas := Some [PyName "core_schema.BoolSchema"] |};
  (* 24: source lines 248-260 *)
  {| field_type := PyName "bool";
     input_type := PyName "str";
     mode := "Lax";
     input_format := "Python & JSON";
     condition := Some "Allowed values: `'f'`, `'n'`, `'no'`, `'off'`, `'false'`, `'False'`, `'t'`, `'y'`, `'on'`, `'yes'`, `'true'`, `'True'`.";
     valid_examples := Some [VStr "f";
         VStr "n";
         VStr "no";
         VStr "off";
         VStr "false";
         VStr "False";
         VStr "t";
         VStr "y";
         VStr "on";
         VStr "yes";
         VStr "true";
         VStr "True"];
     invalid_examples := Some [VStr "test"];
     core_schemas := Some [PyName "core_schema.BoolSchema"] |};
  (* 25: source lines 261-267 *)
  {| field_type := PyNone;
     input_type := PyNone;
     mode := "Strict";
     input_format := "Python & JSON";
     condition := None;
     valid_examples := None;
     invalid_examples := None;
     core_schemas := Some [PyName "core_schema.NoneSchema"] |};
  (* 26: source lines 268-274 *)
  {| field_type := PyName "date";
     input_type := PyName "date";
     mode := "Strict";
     input_format := "Python";
     condition := None;
     valid_examples := None;
     invalid_examples := None;
     core_schemas := Some [PyName "core_schema.DateSchema"] |};
  (* 27: source lines 275-284 *)
  {| field_type := PyName "date";
     input_type := PyName "datetime";
     mode := "Lax";
     input_format := "Python";
     condition := Some "Must be exact date, eg. no `H`, `M`, `S`, `f`.";
     valid_examples := Some [VDatetime 2017 5 5 0 0 0 0] (* datetime(2017, 5, 5) *);
     invalid_examples := Some [VDatetime 2017 5 5 10 0 0 0] (* datetime(2017, 5, 5, 10) *);
     core_schemas := Some [PyName "core_schema.DateSchema"] |};
  (* 28: source lines 285-294 *)
  {| field_type := PyName "date";
     input_type := PyName "str";
     mode := "Lax";
     input_format := "Python & JSON";
     condition := Some "Format: `YYYY-MM-DD`.";
     valid_examples := Some [VStr "2017-05-05"];
     invalid_examples := Some [VStr "2017-5-5";
         VStr "2017/05/05"];
     core_schemas := Some [PyName "core_schema.DateSchema"] |};
  (* 29: source lines 295-304 *)
  {| field_type := PyName "date";
     input_type := PyName "bytes";
     mode := "Lax";
     input_format := "Python";
     condition := Some "Format: `YYYY-MM-DD` (UTF-8).";
     valid_examples := Some [VBytes (list_byte_of_string "2017-05-05")];
     invalid_examples := Some [VBytes (list_byte_of_string "2017-5-5");
         VBytes (list_byte_of_string "2017/05/05")];
     core_schemas := Some [PyName "core_schema.DateSchema"] |};
  (* 30: source lines 305-317 *)
  {| field_type := PyName "date";
     input_type := PyName "int";
     mode := "Lax";
     input_format := "Python & JSON";
     condition := Some "Interpreted as seconds or ms from epoch. See [speedate](https://docs.rs/speedate/latest/speedate/). Must be exact date.";
     valid_examples := Some [VInt 1493942400000;
         VInt 1493942400];
     invalid_examples := Some [VInt 1493942401000];
     core_schemas := Some [PyName "core_schema.DateSchema"] |};
  (* 31: source lines 318-330 *)
  {| field_type := PyName "date";
     input_type := PyName "float";
     mode := "Lax";
     input_format := "Python & JSON";
     condition := Some "Interpreted as seconds or ms from epoch. See [speedate](https://docs.rs/speedate/latest/speedate/). Must be exact date.";
     valid_examples := Some [VFloat (FFinite 1493942400000 1); (* 1493942400000.0 *)
         VFloat (FFinite 1493942400 1)] (* 1493942400.0 *);
     invalid_examples := Some [VFloat (FFinite 1493942401000 1)] (* 1493942401000.0 *);
     core_schemas := Some [PyName "core_schema.DateSchema"] |};
  (* 32: source lines 331-343 *)
  {| field_type := PyName "date";
     input_type := PyName "Decimal";
     mode := "Lax";
     input_format := "Python";
     condition := Some "Interpreted as seconds or ms from epoch. See [speedate](https://docs.rs/speedate/latest/speedate/). Must be exact date.";
     valid_examples := Some [VDecimal 1493942400000 1; (* Decimal(1493942400000) *)
         VDecimal 1493942400 1] (* Decimal(1493942400) *);
     invalid_examples := Some [VDecimal 1493942401000 1] (* Decimal(1493942401000) *);
     core_schemas := Some [PyName "core_schema.DateSchema"] |};
  (* 33: source lines 344-350 *)
  {| field_type := PyName "datetime";
     input_type := PyName "datetime";
     mode := "Strict";
     input_format := "Python";
     condition := None;
     valid_examples := None;
     invalid_examples := None;
     core_schemas := Some [PyName "core_schema.DatetimeSchema"] |};
  (* 34: source lines 351-358 *)
  {| field_type := PyName "datetime";
     input_type := PyName "date";
     mode := "Lax";
     input_format := "Python";
     condition := None;
     valid_examples := Some [VDate 2017 5 5];
     invalid_examples := None;
     core_schemas := Some [PyName "core_schema.DatetimeSchema"] |};
  (* 35: source lines 359-368 *)
  {| field_type := PyName "datetime";
     input_type := PyName "str";
     mode := "Lax";
     input_format := "Python & JSON";
     condition := Some "Format: `YYYY-MM-DDTHH:MM:SS.f`. See [speedate](https://docs.rs/speedate/latest/speedate/).";
     valid_examples := Some [VStr "2017-05-05 10:10:10";
         VStr "2017-05-05T10:10:10.0002";
         VStr "2017-05-05 10:10:10+00:00"];
     invalid_examples := Some [VStr "2017-5-5T10:10:10"];
     core_schemas := Some [PyName "core_schema.DatetimeSchema"] |};
  (* 36: source lines 369-380 *)
  {| field_type := PyName "datetime";
     input_type := PyName "bytes";
     mode := "Lax";
     input_format := "Python";
     condition := Some "Format: `YYYY-MM-DDTHH:MM:SS.f`. See [speedate](https://docs.rs/speedate/latest/speedate/), (UTF-8).";
     valid_examples := Some [VBytes (list_byte_of_string "2017-05-05 10:10:10");
         VBytes (list_byte_of_string "2017-05-05T10:10:10.0002");
         VBytes (list_byte_of_string "2017-05-05 10:10:10+00:00")];
     invalid_examples := Some [VBytes (list_byte_of_string "2017-5-5T10:10:10")];
     core_schemas := Some [PyName "core_schema.DatetimeSchema"] |};
  (* 37: source lines 381-389 *)
  {| field_type := PyName "datetime";
     input_type := PyName "int";
     mode := "Lax";
     input_format := "Python & JSON";
     condition := Some "Interpreted as seconds or ms from epoch, see [speedate](https://docs.rs/speedate/latest/speedate/).";
     valid_examples := Some [VInt 1493979010000;
         VInt 1493979010];
     invalid_examples := None;
     core_schemas := Some [PyName "core_schema.DatetimeSchema"] |};
  (* 38: source lines 390-398 *)
  {| field_type := PyName "datetime";
     input_type := PyName "float";
     mode := "Lax";
     input_format := "Python & JSON";
     condition := Some "Interpreted as seconds or ms from epoch, see [speedate](https://docs.rs/speedate/latest/speedate/).";
     valid_examples := Some [VFloat (FFinite 1493979010000 1); (* 1493979010000.0 *)
         VFloat (FFinite 1493979010 1)] (* 1493979010.0 *);
     invalid_examples := None;
     core_schemas := Some [PyName "core_schema.DatetimeSchema"] |};
  (* 39: source lines 399-407 *)
  {| field_type := PyName "datetime";
     input_type := PyName "Decimal";
     mode := "Lax";
     input_format := "Python";
     condition := Some "Interpreted as seconds or ms from epoch, see [speedate](https://docs.rs/speedate/latest/speedate/).";
     valid_examples := Some [VDecimal 1493979010000 1; (* Decimal(1493979010000) *)
         VDecimal 1493979010 1] (* Decimal(1493979010) *);
     invalid_examples := None;
     core_schemas := Some [PyName "core_schema.DatetimeSchema"] |};
  (* 40: source lines 408-414 *)
  {| field_type := PyName "time";
     input_type := PyName "time";
     mode := "Strict";
     input_format := "Python";
     condition := None;
     valid_examples := None;
     invalid_examples := None;
     core_schemas := Some [PyName "core_schema.TimeSchema"] |};
  (* 41: source lines 415-424 *)
  {| field_type := PyName "time";
     input_type := PyName "str";
     mode := "Lax";
     input_format := "Python & JSON";
     condition := Some "Format: `HH:MM:SS.FFFFFF`. See [speedate](https://docs.rs/speedate/latest/speedate/).";
     valid_examples := Some [VStr "10:10:10.0002"];
     invalid_examples := Some [VStr "1:1:1"];
     core_schemas := Some [PyName "core_schema.TimeSchema"] |};
  (* 42: source lines 425-434 *)
  {| field_type := PyName "time";
     input_type := PyName "bytes";
     mode := "Lax";
     input_format := "Python";
     condition := Some "Format: `HH:MM:SS.FFFFFF`. See [speedate](https://docs.rs/speedate/latest/speedate/).";
     valid_examples := Some [VBytes (list_byte_of_string "10:10:10.0002")];
     invalid_examples := Some [VBytes (list_byte_of_string "1:1:1")];
     core_schemas := Some [PyName "core_schema.TimeSchema"] |};
  (* 43: source lines 435-444 *)
  {| field_type := PyName "time";
     input_type := PyName "int";
     mode := "Lax";
     input_format := "Python & JSON";
     condition := Some "Interpreted as seconds, range `0 - 86399`.";
     valid_examples := Some [VInt 3720];
     invalid_examples := Some [VInt (-1);
         VInt 86400];
     core_schemas := Some [PyName "core_schema.TimeSchema"] |};
  (* 44: source lines 445-454 *)
  {| field_type := PyName "time";
     input_type := PyName "float";
     mode := "Lax";
     input_format := "Python & JSON";
     condition := Some "Interpreted as seconds, range `0 - 86399.9*`.";
     valid_examples := Some [VFloat (FFinite 8180366950458091 2199023255552)] (* 3720.0002 *);
     invalid_examples := Some [VFloat (FFinite (-1) 1); (* -1.0 *)
         VFloat (FFinite 86400 1)] (* 86400.0 *);
     core_schemas := Some [PyName "core_schema.TimeSchema"] |};
  (* 45: source lines 455-464 *)
  {| field_type := PyName "time";
     input_type := PyName "Decimal";
     mode := "Lax";
     input_format := "Python";
     condition := Some "Interpreted as seconds, range `0 - 86399.9*`.";
     valid_examples := Some [VDecimal 8180366950458091 2199023255552] (* Decimal(3720.0002) *);
     invalid_examples := Some [VDecimal (-1) 1; (* Decimal(-1) *)
         VDecimal 86400 1] (* Decimal(86400) *);
     core_schemas := Some [PyName "core_schema.TimeSchema"] |};
  (* 46: source lines 465-471 *)
  {| field_type := PyName "timedelta";
     input_type := PyName "timedelta";
     mode := "Strict";
     input_format := "Python";
     condition := None;
     valid_examples := None;
     invalid_examples := None;
     core_schemas := Some [PyName "core_schema.TimedeltaSchema"] |};
  (* 47: source lines 472-481 *)
  {| field_type := PyName "timedelta";
     input_type := PyName "str";
     mode := "Lax";
     input_format := "Python & JSON";
     condition := Some "Format: `ISO8601`. See [speedate](https://docs.rs/speedate/latest/speedate/).";
     valid_examples := Some [VStr "1 days 10:10";
         VStr "1 d 10:10"];
     invalid_examples := Some [VStr "1 10:10"];
     core_schemas := Some [PyName "core_schema.TimedeltaSchema"] |};
  (* 48: source lines 482-491 *)
  {| field_type := PyName "timedelta";
     input_type := PyName "bytes";
     mode := "Lax";
     input_format := "Python";
     condition := Some "Format: `ISO8601`. See [speedate](https://docs.rs/speedate/latest/speedate/), (UTF-8).";
     valid_examples := Some [VBytes (list_byte_of_string "1 days 10:10");
         VBytes (list_byte_of_string "1 d 10:10")];
     invalid_examples := Some [VBytes (list_byte_of_string "1 10:10")];
     core_schemas := Some [PyName "core_schema.TimedeltaSchema"] |};
  (* 49: source lines 492-500 *)
  {| field_type := PyName "timedelta";
     input_type := PyName "int";
     mode := "Lax";
     input_format := "Python & JSON";
     condition := Some "Interpreted as seconds.";
     valid_examples := Some [VInt 123000];
     invalid_examples := None;
     core_schemas := Some [PyName "core_schema.TimedeltaSchema"] |};
  (* 50: source lines 501-509 *)
  {| field_type := PyName "timedelta";
     input_type := PyName "float";
     mode := "Lax";
     input_format := "Python & JSON";
     condition := Some "Interpreted as seconds.";
     valid_examples := Some [VFloat (FFinite 8452495652271895 68719476736)] (* 123_000.0002 *);
     invalid_examples := None;
     core_schemas := Some [PyName "core_schema.TimedeltaSchema"] |};
  (* 51: source lines 510-518 *)
  {| field_type := PyName "timedelta";
     input_type := PyName "Decimal";
     mode := "Lax";
     input_format := "Python";
     condition := Some "Interpreted as seconds.";
     valid_examples := Some [VDecimal 8452495652271895 68719476736] (* Decimal(123_000.0002) *);
     invalid_examples := None;
     core_schemas := Some [PyName "core_schema.TimedeltaSchema"] |};
  (* 52: source lines 519-525 *)
  {| field_type := PyName "dict";
     input_type := PyName "dict";
     mode := "Strict";
     input_format := "Python";
     condition := None;
     valid_examples := None;
     invalid_examples := None;
     core_schemas := Some [PyName "core_schema.DictSchema"] |};
  (* 53: source lines 526-533 *)
  {| field_type := PyName "dict";
     input_type := PyStr "Object";
     mode := "Strict";
     input_format := "JSON";
     condition := None;
     valid_examples := Some [VStr ("{" ++ dquote ++ "v" ++ dquote ++ ": {" ++ dquote ++ "1" ++ dquote ++ ": 1, " ++ dquote ++ "2" ++ dquote ++ ": 2}}")];
     invalid_examples := None;
     core_schemas := Some [PyName "core_schema.DictSchema"] |};
  (* 54: source lines 534-542 *)
  {| field_type := PyName "dict";
     input_type := PyName "Mapping";
     mode := "Lax";
     input_format := "Python";
     condition := Some "Must implement the mapping interface and have an `items()` method.";
     valid_examples := Some [];
     invalid_examples := None;
     core_schemas := Some [PyName "core_schema.DictSchema"] |};
  (* 55: source lines 543-549 *)
  {| field_type := PyName "TypedDict";
     input_type := PyName "dict";
     mode := "Strict";
     input_format := "Python";
     condition := None;
     valid_examples := None;
     invalid_examples := None;
     core_schemas := Some [PyName "core_schema.TypedDictSchema"] |};
  (* 56: source lines 550-556 *)
  {| field_type := PyName "TypedDict";
     input_type := PyStr "Object";
     mode := "Strict";
     input_format := "JSON";
     condition := None;
     valid_examples := None;
     invalid_examples := None;
     core_schemas := Some [PyName "core_schema.TypedDictSchema"] |};
  (* 57: source lines 557-563 *)
  {| field_type := PyName "TypedDict";
     input_type := PyName "Any";
     mode := "Strict";
     input_format := "Python";
     condition := None;
     valid_examples := None;
     invalid_examples := None;
     core_schemas := Some [PyName "core_schema.TypedDictSchema"] |};
  (* 58: source lines 564-572 *)
  {| field_type := PyName "TypedDict";
     input_type := PyName "Mapping";
     mode := "Lax";
     input_format := "Python";
     condition := Some "Must implement the mapping interface and have an `items()` method.";
     valid_examples := Some [];
     invalid_examples := None;
     core_schemas := Some [PyName "core_schema.TypedDictSchema"] |};
  (* 59: source lines 573-579 *)
  {| field_type := PyName "list";
     input_type := PyName "list";
     mode := "Strict";
     input_format := "Python";
     condition := None;
     valid_examples := None;
     invalid_examples := None;
     core_schemas := Some [PyName "core_schema.ListSchema"] |};
  (* 60: source lines 580-586 *)
  {| field_type := PyName "list";
     input_type := PyStr "Array";
     mode := "Strict";
     input_format := "JSON";
     condition := None;
     valid_examples := None;
     invalid_examples := None;
     core_schemas := Some [PyName "core_schema.ListSchema"] |};
  (* 61: source lines 587-593 *)
  {| field_type := PyName "list";
     input_type := PyName "tuple";
     mode := "Lax";
     input_format := "Python";
     condition := None;
     valid_examples := None;
     invalid_examples := None;
     core_schemas := Some [PyName "core_schema.ListSchema"] |};
  (* 62: source lines 594-600 *)
  {| field_type := PyName "list";
     input_type := PyName "set";
     mode := "Lax";
     input_format := "Python";
     condition := None;
     valid_examples := None;
     invalid_examples := None;
     core_schemas := Some [PyName "core_schema.ListSchema"] |};
  (* 63: source lines 601-607 *)
  {| field_type := PyName "list";
     input_type := PyName "frozenset";
     mode := "Lax";
     input_format := "Python";
     condition := None;
     valid_examples := None;
     invalid_examples := None;
     core_schemas := Some [PyName "core_schema.ListSchema"] |};
  (* 64: source lines 608-614 *)
  {| field_type := PyName "list";
     input_type := PyName "deque";
     mode := "Lax";
     input_format := "Python";
     condition := None;
     valid_examples := None;
     invalid_examples := None;
     core_schemas := Some [PyName "core_schema.ListSchema"] |};
  (* 65: source lines 615-621 *)
  {| field_type := PyName "list";
     input_type := PyStr "dict_keys";
     mode := "Lax";
     input_format := "Python";
     condition := None;
     valid_examples := None;
     invalid_examples := None;
     core_schemas := Some [PyName "core_schema.ListSchema"] |};
  (* 66: source lines 622-628 *)
  {| field_type := PyName "list";
     input_type := PyStr "dict_values";
     mode := "Lax";
     input_format := "Python";
     condition := None;
     valid_examples := None;
     invalid_examples := None;
     core_schemas := Some [PyName "core_schema.ListSchema"] |};
  (* 67: source lines 629-635 *)
  {| field_type := PyName "tuple";
     input_type := PyName "tuple";
     mode := "Strict";
     input_format := "Python";
     condition := None;
     valid_examples := None;
     invalid_examples := None;
     core_schemas := Some [PyName "core_schema.TuplePositionalSchema";
         PyName "core_schema.TupleVariableSchema"] |};
  (* 68: source lines 636-642 *)
  {| field_type := PyName "tuple";
     input_type := PyStr "Array";
     mode := "Strict";
     input_format := "JSON";
     condition := None;
     valid_examples := None;
     invalid_examples := None;
     core_schemas := Some [PyName "core_schema.TuplePositionalSchema";
         PyName "core_schema.TupleVariableSchema"] |};
  (* 69: source lines 643-649 *)
  {| field_type := PyName "tuple";
     input_type := PyName "list";
     mode := "Lax";
     input_format := "Python";
     condition := None;
     valid_examples := None;
     invalid_examples := None;
     core_schemas := Some [PyName "core_schema.TuplePositionalSchema";
         PyName "core_schema.TupleVariableSchema"] |};
  (* 70: source lines 650-656 *)
  {| field_type := PyName "tuple";
     input_type := PyName "set";
     mode := "Lax";
     input_format := "Python";
     condition := None;
     valid_examples := None;
     invalid_examples := None;
     core_schemas := Some [PyName "core_schema.TuplePositionalSchema";
         PyName "core_schema.TupleVariableSchema"] |};
  (* 71: source lines 657-663 *)
  {| field_type := PyName "tuple";
     input_type := PyName "frozenset";
     mode := "Lax";
     input_format := "Python";
     condition := None;
     valid_examples := None;
     invalid_examples := None;
     core_schemas := Some [PyName "core_schema.TuplePositionalSchema";
         PyName "core_schema.TupleVariableSchema"] |};
  (* 72: source lines 664-670 *)
  {| field_type := PyName "tuple";
     input_type := PyName "deque";
     mode := "Lax";
     input_format := "Python";
     condition := None;
     valid_examples := None;
     invalid_examples := None;
     core_schemas := Some [PyName "core_schema.TuplePositionalSchema";
         PyName "core_schema.TupleVariableSchema"] |};
  (* 73: source lines 671-677 *)
  {| field_type := PyName "tuple";
     input_type := PyStr "dict_keys";
     mode := "Lax";
     input_format := "Python";
     condition := None;
     valid_examples := None;
     invalid_examples := None;
     core_schemas := Some [PyName "core_schema.TuplePositionalSchema";
         PyName "core_schema.TupleVariableSchema"] |};
  (* 74: source lines 678-684 *)
  {| field_type := PyName "tuple";
     input_type := PyStr "dict_values";
     mode := "Lax";
     input_format := "Python";
     condition := None;
     valid_examples := None;
     invalid_examples := None;
     core_schemas := Some [PyName "core_schema.TuplePositionalSchema";
         PyName "core_schema.TupleVariableSchema"] |};
  (* 75: source lines 685-691 *)
  {| field_type := PyName "set";
     input_type := PyName "set";
     mode := "Strict";
     input_format := "Python";
     condition := None;
     valid_examples := None;
     invalid_examples := None;
     core_schemas := Some [PyName "core_schema.SetSchema"] |};
  (* 76: source lines 692-698 *)
  {| field_type := PyName "set";
     input_type := PyStr "Array";
     mode := "Strict";
     input_format := "JSON";
     condition := None;
     valid_examples := None;
     invalid_examples := None;
     core_schemas := Some [PyName "core_schema.SetSchema"] |};
  (* 77: source lines 699-705 *)
  {| field_type := PyName "set";
     input_type := PyName "list";
     mode := "Lax";
     input_format := "Python";
     condition := None;
     valid_examples := None;
     invalid_examples := None;
     core_schemas := Some [PyName "core_schema.SetSchema"] |};
  (* 78: source lines 706-712 *)
  {| field_type := PyName "set";
     input_type := PyName "tuple";
     mode := "Lax";
     input_format := "Python";
     condition := None;
     valid_examples := None;
     invalid_examples := None;
     core_schemas := Some [PyName "core_schema.SetSchema"] |};
  (* 79: source lines 713-719 *)
  {| field_type := PyName "set";
     input_type := PyName "frozenset";
     mode := "Lax";
     input_format := "Python";
     condition := None;
     valid_examples := None;
     invalid_examples := None;
     core_schemas := Some [PyName "core_schema.SetSchema"] |};
  (* 80: source lines 720-726 *)
  {| field_type := PyName "set";
     input_type := PyName "deque";
     mode := "Lax";
     input_format := "Python";
     condition := None;
     valid_examples := None;
     invalid_examples := None;
     core_schemas := Some [PyName "core_schema.SetSchema"] |};
  (* 81: source lines 727-733 *)
  {| field_type := PyName "set";
     input_type := PyStr "dict_keys";
     mode := "Lax";
     input_format := "Python";
     condition := None;
     valid_examples := None;
     invalid_examples := None;
     core_schemas := Some [PyName "core_schema.SetSchema"] |};
  (* 82: source lines 734-740 *)
  {| field_type := PyName "set";
     input_type := PyStr "dict_values";
     mode := "Lax";
     input_format := "Python";
     condition := None;
     valid_examples := None;
     invalid_examples := None;
     core_schemas := Some [PyName "core_schema.SetSchema"] |};
  (* 83: source lines 741-747 *)
  {| field_type := PyName "frozenset";
     input_type := PyName "frozenset";
     mode := "Strict";
     input_format := "Python";
     condition := None;
     valid_examples := None;
     invalid_examples := None;
     core_schemas := Some [PyName "core_schema.FrozenSetSchema"] |};
  (* 84: source lines 748-754 *)
  {| field_type := PyName "frozenset";
     input_type := PyStr "Array";
     mode := "Strict";
     input_format := "JSON";
     condition := None;
     valid_examples := None;
     invalid_examples := None;
     core_schemas := Some [PyName "core_schema.FrozenSetSchema"] |};
  (* 85: source lines 755-761 *)
  {| field_type := PyName "frozenset";
     input_type := PyName "list";
     mode := "Lax";
     input_format := "Python";
     condition := None;
     valid_examples := None;
     invalid_examples := None;
     core_schemas := Some [PyName "core_schema.FrozenSetSchema"] |};
  (* 86: source lines 762-768 *)
  {| field_type := PyName "frozenset";
     input_type := PyName "tuple";
     mode := "Lax";
     input_format := "Python";
     condition := None;
     valid_examples := None;
     invalid_examples := None;
     core_schemas := Some [PyName "core_schema.FrozenSetSchema"] |};
  (* 87: source lines 769-775 *)
  {| field_type := PyName "frozenset";
     input_type := PyName "set";
     mode := "Lax";
     input_format := "Python";
     condition := None;
     valid_examples := None;
     invalid_examples := None;
     core_schemas := Some [PyName "core_schema.FrozenSetSchema"] |};
  (* 88: source lines 776-782 *)
  {| field_type := PyName "frozenset";
     input_type := PyName "deque";
     mode := "Lax";
     input_format := "Python";
     condition := None;
     valid_examples := None;
     invalid_examples := None;
     core_schemas := Some [PyName "core_schema.FrozenSetSchema"] |};
  (* 89: source lines 783-789 *)
  {| field_type := PyName "frozenset";
     input_type := PyStr "dict_keys";
     mode := "Lax";
     input_format := "Python";
     condition := None;
     valid_examples := None;
     invalid_examples := None;
     core_schemas := Some [PyName "core_schema.FrozenSetSchema"] |};
  (* 90: source lines 790-796 *)
  {| field_type := PyName "frozenset";
     input_type := PyStr "dict_values";
     mode := "Lax";
     input_format := "Python";
     condition := None;
     valid_examples := None;
     invalid_examples := None;
     core_schemas := Some [PyName "core_schema.FrozenSetSchema"] |};
  (* 91: source lines 797-804 *)
  {| field_type := PyName "isinstance";
     input_type := PyName "Any";
     mode := "Strict";
     input_format := "Python";
     condition := Some "`isinstance()` check returns `True`.";
     valid_examples := None;
     invalid_examples := None;
     core_schemas := Some [PyName "core_schema.IsInstanceSchema"] |};
  (* 92: source lines 805-812 *)
  {| field_type := PyName "isinstance";
     input_type := PyStr "-";
     mode := "Strict";
     input_format := "JSON";
     condition := Some "Never valid.";
     valid_examples := None;
     invalid_examples := None;
     core_schemas := Some [PyName "core_schema.IsInstanceSchema"] |};
  (* 93: source lines 813-820 *)
  {| field_type := PyName "callable";
     input_type := PyName "Any";
     mode := "Strict";
     input_format := "Python";
     condition := Some "`callable()` check returns `True`.";
     valid_examples := None;
     invalid_examples := None;
     core_schemas := Some [PyName "core_schema.CallableSchema"] |};
  (* 94: source lines 821-828 *)
  {| field_type := PyName "callable";
     input_type := PyStr EmptyString;
     mode := "Strict";
     input_format := "JSON";
     condition := Some "Never valid.";
     valid_examples := None;
     invalid_examples := None;
     core_schemas := Some [PyName "core_schema.CallableSchema"] |};
  (* 95: source lines 829-835 *)
  {| field_type := PyName "deque";
     input_type := PyName "deque";
     mode := "Strict";
     input_format := "Python";
     condition := None;
     valid_examples := None;
     invalid_examples := None;
     core_schemas := Some [PyName "core_schema.WrapValidatorFunctionSchema"] |};
  (* 96: source lines 836-842 *)
  {| field_type := PyName "deque";
     input_type := PyStr "Array";
     mode := "Strict";
     input_format := "Json";
     condition := None;
     valid_examples := None;
     invalid_examples := None;
     core_schemas := Some [PyName "core_schema.WrapValidatorFunctionSchema"] |};
  (* 97: source lines 843-849 *)
  {| field_type := PyName "deque";
     input_type := PyName "list";
     mode := "Lax";
     input_format := "Python";
     condition := None;
     valid_examples := None;
     invalid_examples := None;
     core_schemas := Some [PyName "core_schema.ChainSchema"] |};
  (* 98: source lines 850-856 *)
  {| field_type := PyName "deque";
     input_type := PyName "tuple";
     mode := "Lax";
     input_format := "Python";
     condition := None;
     valid_examples := None;
     invalid_examples := None;
     core_schemas := Some [PyName "core_schema.ChainSchema"] |};
  (* 99: source lines 857-863 *)
  {| field_type := PyName "deque";
     input_type := PyName "set";
     mode := "Lax";
     input_format := "Python";
     condition := None;
     valid_examples := None;
     invalid_examples := None;
     core_schemas := Some [PyName "core_schema.ChainSchema"] |};
  (* 100: source lines 864-870 *)
  {| field_type := PyName "deque";
     input_type := PyName "frozenset";
     mode := "Lax";
     input_format := "Python";
     condition := None;
     valid_examples := None;
     invalid_examples := None;
     core_schemas := Some [PyName "core_schema.ChainSchema"] |};
  (* 101: source lines 871-877 *)
  {| field_type := PyName "Any";
     input_type := PyName "Any";
     mode := "Strict";
     input_format := "Python & JSON";
     condition := None;
     valid_examples := None;
     invalid_examples := None;
     core_schemas := Some [PyName "core_schema.AnySchema"] |};
  (* 102: source lines 878-884 *)
  {| field_type := PyName "typing.NamedTuple";
     input_type := PyName "typing.NamedTuple";
     mode := "Strict";
     input_format := "Python";
     condition := None;
     valid_examples := None;
     invalid_examples := None;
     core_schemas := Some [PyName "core_schema.CallSchema"] |};
  (* 103: source lines 885-891 *)
  {| field_type := PyName "typing.NamedTuple";
     input_type := PyStr "Array";
     mode := "Strict";
     input_format := "JSON";
     condition := None;
     valid_examples := None;
     invalid_examples := None;
     core_schemas := Some [PyName "core_schema.CallSchema"] |};
  (* 104: source lines 892-898 *)
  {| field_type := PyName "typing.NamedTuple";
     input_type := PyName "collections.namedtuple";
     mode := "Strict";
     input_format := "Python";
     condition := None;
     valid_examples := None;
     invalid_examples := None;
     core_schemas := Some [PyName "core_schema.CallSchema"] |};
  (* 105: source lines 899-905 *)
  {| field_type := PyName "typing.NamedTuple";
     input_type := PyName "tuple";
     mode := "Strict";
     input_format := "Python";
     condition := None;
     valid_examples := None;
     invalid_examples := None;
     core_schemas := Some [PyName "core_schema.CallSchema"] |};
  (* 106: source lines 906-912 *)
  {| field_type := PyName "typing.NamedTuple";
     input_type := PyName "list";
     mode := "Strict";
     input_format := "Python";
     condition := None;
     valid_examples := None;
     invalid_examples := None;
     core_schemas := Some [PyName "core_schema.CallSchema"] |};
  (* 107: source lines 913-919 *)
  {| field_type := PyName "typing.NamedTuple";
     input_type := PyName "dict";
     mode := "Strict";
     input_format := "Python";
     condition := None;
     valid_examples := None;
     invalid_examples := None;
     core_schemas := Some [PyName "core_schema.CallSchema"] |};
  (* 108: source lines 920-926 *)
  {| field_type := PyName "collections.namedtuple";
     input_type := PyName "collections.namedtuple";
     mode := "Strict";
     input_format := "Python";
     condition := None;
     valid_examples := None;
     invalid_examples := None;
     core_schemas := Some [PyName "core_schema.CallSchema"] |};
  (* 109: source lines 927-933 *)
  {| field_type := PyName "collections.namedtuple";
     input_type := PyStr "Array";
     mode := "Strict";
     input_format := "JSON";
     condition := None;
     valid_examples := None;
     invalid_examples := None;
     core_schemas := Some [PyName "core_schema.CallSchema"] |};
  (* 110: source lines 934-940 *)
  {| field_type := PyName "collections.namedtuple";
     input_type := PyName "typing.NamedTuple";
     mode := "Strict";
     input_format := "Python";
     condition := None;
     valid_examples := None;
     invalid_examples := None;
     core_schemas := Some [PyName "core_schema.CallSchema"] |};
  (* 111: source lines 941-947 *)
  {| field_type := PyName "collections.namedtuple";
     input_type := PyName "tuple";
     mode := "Strict";
     input_format := "Python";
     condition := None;
     valid_examples := None;
     invalid_examples := None;
     core_schemas := Some [PyName "core_schema.CallSchema"] |};
  (* 112: source lines 948-954 *)
  {| field_type := PyName "collections.namedtuple";
     input_type := PyName "list";
     mode := "Strict";
     input_format := "Python";
     condition := None;
     valid_examples := None;
     invalid_examples := None;
     core_schemas := Some [PyName "core_schema.CallSchema"] |};
  (* 113: source lines 955-961 *)
  {| field_type := PyName "collections.namedtuple";
     input_type := PyName "dict";
     mode := "Strict";
     input_format := "Python";
     condition := None;
     valid_examples := None;
     invalid_examples := None;
     core_schemas := Some [PyName "core_schema.CallSchema"] |};
  (* 114: source lines 962-968 *)
  {| field_type := PyName "Sequence";
     input_type := PyName "list";
     mode := "Strict";
     input_format := "Python";
     condition := None;
     valid_examples := None;
     invalid_examples := None;
     core_schemas := Some [PyName "core_schema.ChainSchema"] |};
  (* 115: source lines 969-975 *)
  {| field_type := PyName "Sequence";
     input_type := PyStr "Array";
     mode := "Strict";
     input_format := "JSON";
     condition := None;
     valid_examples := None;
     invalid_examples := None;
     core_schemas := Some [PyName "core_schema.ChainSchema"] |};
  (* 116: source lines 976-982 *)
  {| field_type := PyName "Sequence";
     input_type := PyName "tuple";
     mode := "Lax";
     input_format := "Python";
     condition := None;
     valid_examples := None;
     invalid_examples := None;
     core_schemas := Some [PyName "core_schema.ChainSchema"] |};
  (* 117: source lines 983-989 *)
  {| field_type := PyName "Sequence";
     input_type := PyName "deque";
     mode := "Lax";
     input_format := "Python";
     condition := None;
     valid_examples := None;
     invalid_examples := None;
     core_schemas := Some [PyName "core_schema.ChainSchema"] |};
  (* 118: source lines 990-996 *)
  {| field_type := PyName "Iterable";
     input_type := PyName "list";
     mode := "Strict";
     input_format := "Python";
     condition := None;
     valid_examples := None;
     invalid_examples := None;
     core_schemas := Some [PyName "core_schema.GeneratorSchema"] |};
  (* 119: source lines 997-1003 *)
  {| field_type := PyName "Iterable";
     input_type := PyStr "Array";
     mode := "Strict";
     input_format := "JSON";
     condition := None;
     valid_examples := None;
     invalid_examples := None;
     core_schemas := Some [PyName "core_schema.GeneratorSchema"] |};
  (* 120: source lines 1004-1010 *)
  {| field_type := PyName "Iterable";
     input_type := PyName "tuple";
     mode := "Strict";
     input_format := "Python";
     condition := None;
     valid_examples := None;
     invalid_examples := None;
     core_schemas := Some [PyName "core_schema.GeneratorSchema"] |};
  (* 121: source lines 1011-1017 *)
  {| field_type := PyName "Iterable";
     input_type := PyName "set";
     mode := "Strict";
     input_format := "Python";
     condition := None;
     valid_examples := None;
     invalid_examples := None;
     core_schemas := Some [PyName "core_schema.GeneratorSchema"] |};
  (* 122: source lines 1018-1024 *)
  {| field_type := PyName "Iterable";
     input_type := PyName "frozenset";
     mode := "Strict";
     input_format := "Python";
     condition := None;
     valid_examples := None;
     invalid_examples := None;
     core_schemas := Some [PyName "core_schema.GeneratorSchema"] |};
  (* 123: source lines 1025-1031 *)
  {| field_type := PyName "Iterable";
     input_type := PyName "deque";
     mode := "Strict";
     input_format := "Python";
     condition := None;
     valid_examples := None;
     invalid_examples := None;
     core_schemas := Some [PyName "core_schema.GeneratorSchema"] |};
  (* 124: source lines 1032-1038 *)
  {| field_type := PyName "Type";
     input_type := PyName "Type";
     mode := "Strict";
     input_format := "Python";
     condition := None;
     valid_examples := None;
     invalid_examples := None;
     core_schemas := Some [PyName "core_schema.IsSubclassSchema"] |};
  (* 125: source lines 1039-1046 *)
  {| field_type := PyName "Pattern";
     input_type := PyName "str";
     mode := "Strict";
     input_format := "Python & JSON";
     condition := Some "Input should be a valid pattern.";
     valid_examples := None;
     invalid_examples := None;
     core_schemas := Some [PyName "core_schema.PlainValidatorFunctionSchema"] |};
  (* 126: source lines 1047-1054 *)
  {| field_type := PyName "Pattern";
     input_type := PyName "bytes";
     mode := "Strict";
     input_format := "Python";
     condition := Some "Input should be a valid pattern.";
     valid_examples := None;
     invalid_examples := None;
     core_schemas := Some [PyName "core_schema.PlainValidatorFunctionSchema"] |};
  (* 127: source lines 1055-1061 *)
  {| field_type := PyName "IPv4Address";
     input_type := PyName "IPv4Address";
     mode := "Strict";
     input_format := "Python";
     condition := None;
     valid_examples := None;
     invalid_examples := None;
     core_schemas := Some [PyName "core_schema.IsInstanceSchema"] |};
  (* 128: source lines 1062-1068 *)
  {| field_type := PyName "IPv4Address";
     input_type := PyName "IPv4Interface";
     mode := "Strict";
     input_format := "Python";
     condition := None;
     valid_examples := None;
     invalid_examples := None;
     core_schemas := Some [PyName "core_schema.IsInstanceSchema"] |};
  (* 129: source lines 1069-1075 *)
  {| field_type := PyName "IPv4Address";
     input_type := PyName "str";
     mode := "Strict";
     input_format := "JSON";
     condition := None;
     valid_examples := None;
     invalid_examples := None;
     core_schemas := Some [PyName "core_schema.AfterValidatorFunctionSchema"] |};
  (* 130: source lines 1076-1082 *)
  {| field_type := PyName "IPv4Address";
     input_type := PyName "str";
     mode := "Lax";
     input_format := "Python & JSON";
     condition := None;
     valid_examples := None;
     invalid_examples := None;
     core_schemas := Some [PyName "core_schema.PlainValidatorFunctionSchema"] |};
  (* 131: source lines 1083-1090 *)
  {| field_type := PyName "IPv4Address";
     input_type := PyName "bytes";
     mode := "Lax";
     input_format := "Python";
     condition := None;
     valid_examples := Some [VBytes ([x00; x00; x00; x00])];
     invalid_examples := None;
     core_schemas := Some [PyName "core_schema.PlainValidatorFunctionSchema"] |};
  (* 132: source lines 1091-1099 *)
  {| field_type := PyName "IPv4Address";
     input_type := PyName "int";
     mode := "Lax";
     input_format := "Python";
     condition := Some "integer representing the IP address, should be less than `2**32`";
     valid_examples := Some [VInt 168430090];
     invalid_examples := None;
     core_schemas := Some [PyName "core_schema.PlainValidatorFunctionSchema"] |};
  (* 133: source lines 1100-1106 *)
  {| field_type := PyName "IPv4Interface";
     input_type := PyName "IPv4Interface";
     mode := "Strict";
     input_format := "Python";
     condition := None;
     valid_examples := None;
     invalid_examples := None;
     core_schemas := Some [PyName "core_schema.IsInstanceSchema"] |};
  (* 134: source lines 1107-1113 *)
  {| field_type := PyName "IPv4Interface";
     input_type := PyName "str";
     mode := "Strict";
     input_format := "JSON";
     condition := None;
     valid_examples := None;
     invalid_examples := None;
     core_schemas := Some [PyName "core_schema.AfterValidatorFunctionSchema"] |};
  (* 135: source lines 1114-1120 *)
  {| field_type := PyName "IPv4Interface";
     input_type := PyName "IPv4Address";
     mode := "Lax";
     input_format := "Python & JSON";
     condition := None;
     valid_examples := None;
     invalid_examples := None;
     core_schemas := Some [PyName "core_schema.PlainValidatorFunctionSchema"] |};
  (* 136: source lines 1121-1127 *)
  {| field_type := PyName "IPv4Interface";
     input_type := PyName "str";
     mode := "Lax";
     input_format := "Python & JSON";
     condition := None;
     valid_examples := None;
     invalid_examples := None;
     core_schemas := Some [PyName "core_schema.PlainValidatorFunctionSchema"] |};
  (* 137: source lines 1128-1135 *)
  {| field_type := PyName "IPv4Interface";
     input_type := PyName "bytes";
     mode := "Lax";
     input_format := "Python";
     condition := None;
     valid_examples := Some [VBytes ([xff; xff; xff; xff])];
     invalid_examples := None;
     core_schemas := Some [PyName "core_schema.PlainValidatorFunctionSchema"] |};
  (* 138: source lines 1136-1143 *)
  {| field_type := PyName "IPv4Interface";
     input_type := PyName "tuple";
     mode := "Lax";
     input_format := "Python";
     condition := None;
     valid_examples := Some [VTuple [VStr "192.168.0.1"; VStr "24"]];
     invalid_examples := None;
     core_schemas := Some [PyName "core_schema.PlainValidatorFunctionSchema"] |};
  (* 139: source lines 1144-1152 *)
  {| field_type := PyName "IPv4Interface";
     input_type := PyName "int";
     mode := "Lax";
     input_format := "Python";
     condition := Some "integer representing the IP address, should be less than `2**32`";
     valid_examples := Some [VInt 168430090];
     invalid_examples := None;
     core_schemas := Some [PyName "core_schema.PlainValidatorFunctionSchema"] |};
  (* 140: source lines 1153-1159 *)
  {| field_type := PyName "IPv4Network";
     input_type := PyName "IPv4Network";
     mode := "Strict";
     input_format := "Python";
     condition := None;
     valid_examples := None;
     invalid_examples := None;
     core_schemas := Some [PyName "core_schema.IsInstanceSchema"] |};
  (* 141: source lines 1160-1166 *)
  {| field_type := PyName "IPv4Network";
     input_type := PyName "str";
     mode := "Strict";
     input_format := "JSON";
     condition := None;
     valid_examples := None;
     invalid_examples := None;
     core_schemas := Some [PyName "core_schema.AfterValidatorFunctionSchema"] |};
  (* 142: source lines 1167-1173 *)
  {| field_type := PyName "IPv4Network";
     input_type := PyName "IPv4Address";
     mode := "Lax";
     input_format := "Python & JSON";
     condition := None;
     valid_examples := None;
     invalid_examples := None;
     core_schemas := Some [PyName "core_schema.PlainValidatorFunctionSchema"] |};
  (* 143: source lines 1174-1180 *)
  {| field_type := PyName "IPv4Network";
     input_type := PyName "IPv4Interface";
     mode := "Lax";
     input_format := "Python & JSON";
     condition := None;
     valid_examples := None;
     invalid_examples := None;
     core_schemas := Some [PyName "core_schema.PlainValidatorFunctionSchema"] |};
  (* 144: source lines 1181-1187 *)
  {| field_type := PyName "IPv4Network";
     input_type := PyName "str";
     mode := "Lax";
     input_format := "Python & JSON";
     condition := None;
     valid_examples := None;
     invalid_examples := None;
     core_schemas := Some [PyName "core_schema.PlainValidatorFunctionSchema"] |};
  (* 145: source lines 1188-1195 *)
  {| field_type := PyName "IPv4Network";
     input_type := PyName "bytes";
     mode := "Lax";
     input_format := "Python";
     condition := None;
     valid_examples := Some [VBytes ([xff; xff; xff; xff])];
     invalid_examples := None;
     core_schemas := Some [PyName "core_schema.PlainValidatorFunctionSchema"] |};
  (* 146: source lines 1196-1204 *)
  {| field_type := PyName "IPv4Network";
     input_type := PyName "int";
     mode := "Lax";
     input_format := "Python";
     condition := Some "integer representing the IP network, should be less than `2**32`";
     valid_examples := Some [VInt 168430090];
     invalid_examples := None;
     core_schemas := Some [PyName "core_schema.PlainValidatorFunctionSchema"] |};
  (* 147: source lines 1205-1211 *)
  {| field_type := PyName "IPv6Address";
     input_type := PyName "IPv6Address";
     mode := "Strict";
     input_format := "Python";
     condition := None;
     valid_examples := None;
     invalid_examples := None;
     core_schemas := Some [PyName "core_schema.IsInstanceSchema"] |};
  (* 148: source lines 1212-1218 *)
  {| field_type := PyName "IPv6Address";
     input_type := PyName "IPv6Interface";
     mode := "Strict";
     input_format := "Python";
     condition := None;
     valid_examples := None;
     invalid_examples := None;
     core_schemas := Some [PyName "core_schema.IsInstanceSchema"] |};
  (* 149: source lines 1219-1225 *)
  {| field_type := PyName "IPv6Address";
     input_type := PyName "str";
     mode := "Strict";
     input_format := "JSON";
     condition := None;
     valid_examples := None;
     invalid_examples := None;
     core_schemas := Some [PyName "core_schema.AfterValidatorFunctionSchema"] |};
  (* 150: source lines 1226-1232 *)
  {| field_type := PyName "IPv6Address";
     input_type := PyName "str";
     mode := "Lax";
     input_format := "Python & JSON";
     condition := None;
     valid_examples := None;
     invalid_examples := None;
     core_schemas := Some [PyName "core_schema.PlainValidatorFunctionSchema"] |};
  (* 151: source lines 1233-1240 *)
  {| field_type := PyName "IPv6Address";
     input_type := PyName "bytes";
     mode := "Lax";
     input_format := "Python";
     condition := None;
     valid_examples := Some [VBytes ([x00; x00; x00; x00; x00; x00; x00; x00; x00; x00; x00; x01; x00; x00; x00; x01])];
     invalid_examples := None;
     core_schemas := Some [PyName "core_schema.PlainValidatorFunctionSchema"] |};
  (* 152: source lines 1241-1249 *)
  {| field_type := PyName "IPv6Address";
     input_type := PyName "int";
     mode := "Lax";
     input_format := "Python";
     condition := Some "integer representing the IP address, should be less than `2**128`";
     valid_examples := Some [VInt 340282366920938463463374607431768211455];
     invalid_examples := None;
     core_schemas := Some [PyName "core_schema.PlainValidatorFunctionSchema"] |};
  (* 153: source lines 1250-1256 *)
  {| field_type := PyName "IPv6Interface";
     input_type := PyName "IPv6Interface";
     mode := "Strict";
     input_format := "Python";
     condition := None;
     valid_examples := None;
     invalid_examples := None;
     core_schemas := Some [PyName "core_schema.IsInstanceSchema"] |};
  (* 154: source lines 1257-1263 *)
  {| field_type := PyName "IPv6Interface";
     input_type := PyName "str";
     mode := "Strict";
     input_format := "JSON";
     condition := None;
     valid_examples := None;
     invalid_examples := None;
     core_schemas := Some [PyName "core_schema.AfterValidatorFunctionSchema"] |};
  (* 155: source lines 1264-1270 *)
  {| field_type := PyName "IPv6Interface";
     input_type := PyName "IPv6Address";
     mode := "Lax";
     input_format := "Python & JSON";
     condition := None;
     valid_examples := None;
     invalid_examples := None;
     core_schemas := Some [PyName "core_schema.PlainValidatorFunctionSchema"] |};
  (* 156: source lines 1271-1277 *)
  {| field_type := PyName "IPv6Interface";
     input_type := PyName "str";
     mode := "Lax";
     input_format := "Python & JSON";
     condition := None;
     valid_examples := None;
     invalid_examples := None;
     core_schemas := Some [PyName "core_schema.PlainValidatorFunctionSchema"] |};
  (* 157: source lines 1278-1285 *)
  {| field_type := PyName "IPv6Interface";
     input_type := PyName "bytes";
     mode := "Lax";
     input_format := "Python";
     condition := None;
     valid_examples := Some [VBytes ([x00; x00; x00; x00; x00; x00; x00; x00; x00; x00; x00; x01; x00; x00; x00; x01])];
     invalid_examples := None;
     core_schemas := Some [PyName "core_schema.PlainValidatorFunctionSchema"] |};
  (* 158: source lines 1286-1293 *)
  {| field_type := PyName "IPv6Interface";
     input_type := PyName "tuple";
     mode := "Lax";
     input_format := "Python";
     condition := None;
     valid_examples := Some [VTuple [VStr "2001:db00::1"; VStr "120"]];
     invalid_examples := None;
     core_schemas := Some [PyName "core_schema.PlainValidatorFunctionSchema"] |};
  (* 159: source lines 1294-1302 *)
  {| field_type := PyName "IPv6Interface";
     input_type := PyName "int";
     mode := "Lax";
     input_format := "Python";
     condition := Some "integer representing the IP address, should be less than `2**128`";
     valid_examples := Some [VInt 340282366920938463463374607431768211455];
     invalid_examples := None;
     core_schemas := Some [PyName "core_schema.PlainValidatorFunctionSchema"] |};
  (* 160: source lines 1303-1309 *)
  {| field_type := PyName "IPv6Network";
     input_type := PyName "IPv6Network";
     mode := "Strict";
     input_format := "Python";
     condition := None;
     valid_examples := None;
     invalid_examples := None;
     core_schemas := Some [PyName "core_schema.IsInstanceSchema"] |};
  (* 161: source lines 1310-1316 *)
  {| field_type := PyName "IPv6Network";
     input_type := PyName "str";
     mode := "Strict";
     input_format := "JSON";
     condition := None;
     valid_examples := None;
     invalid_examples := None;
     core_schemas := Some [PyName "core_schema.AfterValidatorFunctionSchema"] |};
  (* 162: source lines 1317-1323 *)
  {| field_type := PyName "IPv6Network";
     input_type := PyName "IPv6Address";
     mode := "Lax";
     input_format := "Python & JSON";
     condition := None;
     valid_examples := None;
     invalid_examples := None;
     core_schemas := Some [PyName "core_schema.PlainValidatorFunctionSchema"] |};
  (* 163: source lines 1324-1330 *)
  {| field_type := PyName "IPv6Network";
     input_type := PyName "IPv6Interface";
     mode := "Lax";
     input_format := "Python & JSON";
     condition := None;
     valid_examples := None;
     invalid_examples := None;
     core_schemas := Some [PyName "core_schema.PlainValidatorFunctionSchema"] |};
  (* 164: source lines 1331-1337 *)
  {| field_type := PyName "IPv6Network";
     input_type := PyName "str";
     mode := "Lax";
     input_format := "Python & JSON";
     condition := None;
     valid_examples := None;
     invalid_examples := None;
     core_schemas := Some [PyName "core_schema.PlainValidatorFunctionSchema"] |};
  (* 165: source lines 1338-1345 *)
  {| field_type := PyName "IPv6Network";
     input_type := PyName "bytes";
     mode := "Lax";
     input_format := "Python";
     condition := None;
     valid_examples := Some [VBytes ([x00; x00; x00; x00; x00; x00; x00; x00; x00; x00; x00; x01; x00; x00; x00; x01])];
     invalid_examples := None;
     core_schemas := Some [PyName "core_schema.PlainValidatorFunctionSchema"] |};
  (* 166: source lines 1346-1354 *)
  {| field_type := PyName "IPv6Network";
     input_type := PyName "int";
     mode := "Lax";
     input_format := "Python";
     condition := Some "integer representing the IP address, should be less than `2**128`";
     valid_examples := Some [VInt 340282366920938463463374607431768211455];
     invalid_examples := None;
     core_schemas := Some [PyName "core_schema.PlainValidatorFunctionSchema"] |};
  (* 167: source lines 1355-1361 *)
  {| field_type := PyName "Enum";
     input_type := PyName "Enum";
     mode := "Strict";
     input_format := "Python";
     condition := None;
     valid_examples := None;
     invalid_examples := None;
     core_schemas := Some [PyName "core_schema.IsInstanceSchema"] |};
  (* 168: source lines 1362-1369 *)
  {| field_type := PyName "Enum";
     input_type := PyName "Any";
     mode := "Strict";
     input_format := "JSON";
     condition := Some "Input value should be convertible to enum values.";
     valid_examples := None;
     invalid_examples := None;
     core_schemas := Some [PyName "core_schema.PlainValidatorFunctionSchema"] |};
  (* 169: source lines 1370-1377 *)
  {| field_type := PyName "Enum";
     input_type := PyName "Any";
     mode := "Lax";
     input_format := "Python";
     condition := Some "Input value should be convertible to enum values.";
     valid_examples := None;
     invalid_examples := None;
     core_schemas := Some [PyName "core_schema.PlainValidatorFunctionSchema"] |};
  (* 170: source lines 1378-1384 *)
  {| field_type := PyName "IntEnum";
     input_type := PyName "IntEnum";
     mode := "Strict";
     input_format := "Python";
     condition := None;
     valid_examples := None;
     invalid_examples := None;
     core_schemas := Some [PyName "core_schema.IsInstanceSchema"] |};
  (* 171: source lines 1385-1392 *)
  {| field_type := PyName "IntEnum";
     input_type := PyName "Any";
     mode := "Strict";
     input_format := "JSON";
     condition := Some "Input value should be convertible to enum values.";
     valid_examples := None;
     invalid_examples := None;
     core_schemas := Some [PyName "core_schema.PlainValidatorFunctionSchema"] |};
  (* 172: source lines 1393-1400 *)
  {| field_type := PyName "IntEnum";
     input_type := PyName "Any";
     mode := "Lax";
     input_format := "Python";
     condition := Some "Input value should be convertible to enum values.";
     valid_examples := None;
     invalid_examples := None;
     core_schemas := Some [PyName "core_schema.PlainValidatorFunctionSchema"] |};
  (* 173: source lines 1401-1407 *)
  {| field_type := PyName "Decimal";
     input_type := PyName "Decimal";
     mode := "Strict";
     input_format := "Python";
     condition := None;
     valid_examples := None;
     invalid_examples := None;
     core_schemas := Some [PyName "core_schema.CustomErrorSchema"] |};
  (* 174: source lines 1408-1414 *)
  {| field_type := PyName "Decimal";
     input_type := PyName "int";
     mode := "Strict";
     input_format := "JSON";
     condition := None;
     valid_examples := None;
     invalid_examples := None;
     core_schemas := Some [PyName "core_schema.CustomErrorSchema"] |};
  (* 175: source lines 1415-1421 *)
  {| field_type := PyName "Decimal";
     input_type := PyName "str";
     mode := "Strict";
     input_format := "JSON";
     condition := None;
     valid_examples := None;
     invalid_examples := None;
     core_schemas := Some [PyName "core_schema.CustomErrorSchema"] |};
  (* 176: source lines 1422-1428 *)
  {| field_type := PyName "Decimal";
     input_type := PyName "float";
     mode := "Strict";
     input_format := "JSON";
     condition := None;
     valid_examples := None;
     invalid_examples := None;
     core_schemas := Some [PyName "core_schema.CustomErrorSchema"] |};
  (* 177: source lines 1429-1435 *)
  {| field_type := PyName "Decimal";
     input_type := PyName "int";
     mode := "Lax";
     input_format := "Python & JSON";
     condition := None;
     valid_examples := None;
     invalid_examples := None;
     core_schemas := Some [PyName "core_schema.AfterValidatorFunctionSchema"] |};
  (* 178: source lines 1436-1445 *)
  {| field_type := PyName "Decimal";
     input_type := PyName "str";
     mode := "Lax";
     input_format := "Python & JSON";
     condition := Some "Must match `[0-9]+(\.[0-9]+)?`.";
     valid_examples := Some [VStr "3.141"];
     invalid_examples := Some [VStr "test";
         VStr "3.141x"];
     core_schemas := Some [PyName "core_schema.AfterValidatorFunctionSchema"] |};
  (* 179: source lines 1446-1452 *)
  {| field_type := PyName "Decimal";
     input_type := PyName "float";
     mode := "Lax";
     input_format := "Python & JSON";
     condition := None;
     valid_examples := None;
     invalid_examples := None;
     core_schemas := Some [PyName "core_schema.AfterValidatorFunctionSchema"] |};
  (* 180: source lines 1453-1459 *)
  {| field_type := PyName "Path";
     input_type := PyName "Path";
     mode := "Strict";
     input_format := "Python";
     condition := None;
     valid_examples := None;
     invalid_examples := None;
     core_schemas := Some [PyName "core_schema.IsInstanceSchema"] |};
  (* 181: source lines 1460-1466 *)
  {| field_type := PyName "Path";
     input_type := PyName "str";
     mode := "Strict";
     input_format := "JSON";
     condition := None;
     valid_examples := None;
     invalid_examples := None;
     core_schemas := Some [PyName "core_schema.AfterValidatorFunctionSchema"] |};
  (* 182: source lines 1467-1473 *)
  {| field_type := PyName "Path";
     input_type := PyName "str";
     mode := "Lax";
     input_format := "Python";
     condition := None;
     valid_examples := None;
     invalid_examples := None;
     core_schemas := Some [PyName "core_schema.AfterValidatorFunctionSchema"] |};
  (* 183: source lines 1474-1480 *)
  {| field_type := PyName "UUID";
     input_type := PyName "UUID";
     mode := "Strict";
     input_format := "Python";
     condition := None;
     valid_examples := None;
     invalid_examples := None;
     core_schemas := Some [PyName "core_schema.IsInstanceSchema"] |};
  (* 184: source lines 1481-1487 *)
  {| field_type := PyName "UUID";
     input_type := PyName "str";
     mode := "Strict";
     input_format := "JSON";
     condition := None;
     valid_examples := None;
     invalid_examples := None;
     core_schemas := Some [PyName "core_schema.AfterValidatorFunctionSchema"] |};
  (* 185: source lines 1488-1495 *)
  {| field_type := PyName "UUID";
     input_type := PyName "str";
     mode := "Lax";
     input_format := "Python";
     condition := None;
     valid_examples := Some [VStr "{12345678-1234-5678-1234-567812345678}"];
     invalid_examples := None;
     core_schemas := Some [PyName "core_schema.AfterValidatorFunctionSchema"] |};
  (* 186: source lines 1496-1503 *)
  {| field_type := PyName "ByteSize";
     input_type := PyName "str";
     mode := "Strict";
     input_format := "Python & JSON";
     condition := None;
     valid_examples := Some [VStr "1.2";
         VStr "1.5 KB";
         VStr "6.2EiB"];
     invalid_examples := None;
     core_schemas := Some [PyName "core_schema.PlainValidatorFunctionSchema"] |};
  (* 187: source lines 1504-1510 *)
  {| field_type := PyName "ByteSize";
     input_type := PyName "int";
     mode := "Strict";
     input_format := "Python & JSON";
     condition := None;
     valid_examples := None;
     invalid_examples := None;
     core_schemas := Some [PyName "core_schema.PlainValidatorFunctionSchema"] |};
  (* 188: source lines 1511-1517 *)
  {| field_type := PyName "ByteSize";
     input_type := PyName "float";
     mode := "Strict";
     input_format := "Python & JSON";
     condition := None;
     valid_examples := None;
     invalid_examples := None;
     core_schemas := Some [PyName "core_schema.PlainValidatorFunctionSchema"] |};
  (* 189: source lines 1518-1524 *)
  {| field_type := PyName "ByteSize";
     input_type := PyName "Decimal";
     mode := "Strict";
     input_format := "Python";
     condition := None;
     valid_examples := None;
     invalid_examples := None;
     core_schemas := Some [PyName "core_schema.PlainValidatorFunctionSchema"] |}
].

(** ** Equality of objects and of example values *)

Definition pyobj_eqb (a b : pyobj) : bool :=
  match a, b with
  | PyName x, PyName y => String.eqb x y
  | PyStr x, PyStr y => String.eqb x y
  | PyNone, PyNone => true
  | _, _ => false
  end.

(** The number a numeric value stands for.  Python compares [bool],
    [int], [float] and [Decimal] by exact value across types. *)
Inductive pynum : Type :=
| NRat (num : Z) (den : positive)
| NInf
| NNan.

Definition num_of (v : pyval) : option pynum :=
  match v with
  | VBool b => Some (NRat (if b then 1 else 0) 1)
  | VInt z => Some (NRat z 1)
  | VFloat (FFinite n d) => Some (NRat n d)
  | VFloat FPosInf => Some NInf
  | VFloat FNan => Some NNan
  | VDecimal n d => Some (NRat n d)
  | _ => None
  end.

(** [nan] equals nothing, itself included. *)
Definition pynum_eqb (a b : pynum) : bool :=
  match a, b with
  | NRat n d, NRat n' d' => n * Z.pos d' =? n' * Z.pos d
  | NInf, NInf => true
  | _, _ => false
  end.

Fixpoint bytes_eqb (x y : list byte) : bool :=
  match x, y with
  | [], [] => true
  | a :: x', b :: y' => Byte.eqb a b && bytes_eqb x' y'
  | _, _ => false
  end.

(** Python's [==] on example values: numbers by value, [str] by
    content, [bytes] and [bytearray] by content (also across the two),
    dates and naive datetimes field by field (a [datetime] never equals
    a plain [date]), tuples item by item; values of unrelated types are
    unequal. *)
Fixpoint py_eq (a b : pyval) {struct a} : bool :=
  match a, b with
  | VStr x, VStr y => String.eqb x y
  | VBytes x, VBytes y | VBytes x, VByteArray y
  | VByteArray x, VBytes y | VByteArray x, VByteArray y => bytes_eqb x y
  | VDate y1 m1 d1, VDate y2 m2 d2 => (y1 =? y2) && (m1 =? m2) && (d1 =? d2)
  | VDatetime y1 m1 d1 h1 mi1 s1 u1, VDatetime y2 m2 d2 h2 mi2 s2 u2 =>
      (y1 =? y2) && (m1 =? m2) && (d1 =? d2) && (h1 =? h2)
      && (mi1 =? mi2) && (s1 =? s2) && (u1 =? u2)
  | VTuple xs, VTuple ys =>
      (fix items (xs ys : list pyval) {struct xs} : bool :=
         match xs, ys with
         | [], [] => true
         | x :: xs', y :: ys' => py_eq x y && items xs' ys'
         | _, _ => false
         end) xs ys
  | _, _ =>
      match num_of a, num_of b with
      | Some x, Some y => pynum_eqb x y
      | _, _ => false
      end
  end.

(** [v in l]. *)
Definition py_in (v : pyval) (l : list pyval) : bool := existsb (py_eq v) l.

(** ** The declared enumerations *)

(** [Literal['Lax', 'Strict']] and
    [Literal['Python', 'JSON', 'Python & JSON']]. *)
Definition modes : list string := ["Lax"; "Strict"].
Definition input_formats : list string := ["Python"; "JSON"; "Python & JSON"].

Definition str_in (s : string) (l : list string) : bool :=
  existsb (String.eqb s) l.

Definition mode_ok (r : Row) : bool := str_in (mode r) modes.
Definition input_format_ok (r : Row) : bool := str_in (input_format r) input_formats.

(** ** Checks on single rows *)

(** A target type is given: the field holds a named object or a string
    with a non-empty name, or [None], which the table passes as the type
    it documents (row 25, realised by [NoneSchema]).  The field itself is
    a required positional argument and cannot be left out. *)
Definition has_target_type (r : Row) : bool :=
  match field_type r with
  | PyName n => negb (String.eqb n EmptyString)
  | PyStr s => negb (String.eqb s EmptyString)
  | PyNone => true
  end.

(** The row that documents the [None] type itself. *)
Definition documents_none_type (r : Row) : bool :=
  pyobj_eqb (field_type r) PyNone && pyobj_eqb (input_type r) PyNone
  && match core_schemas r with
     | Some [s] => pyobj_eqb s (PyName "core_schema.NoneSchema")
     | _ => false
     end.

(** No value of [vs] occurs in [ws]. *)
Definition no_common_value (vs ws : list pyval) : bool :=
  forallb (fun v => negb (py_in v ws)) vs.

(** Both example lists present implies they share no value. *)
Definition examples_disjoint (r : Row) : bool :=
  match valid_examples r, invalid_examples r with
  | Some vs, Some ws => no_common_value vs ws && no_common_value ws vs
  | _, _ => true
  end.

(** [core_schemas] is given and names at least one schema. *)
Definition names_schema (r : Row) : bool :=
  match core_schemas r with
  | Some (_ :: _) => true
  | _ => false
  end.

(** ** Checks across rows *)

(** Rows documenting the same representation of the same target on the
    same channel. *)
Definition same_rule (r1 r2 : Row) : bool :=
  pyobj_eqb (field_type r1) (field_type r2)
  && pyobj_eqb (input_type r1) (input_type r2)
  && String.eqb (input_format r1) (input_format r2).

(** No valid example of [r1] is an invalid example of [r2]. *)
Definition no_contradiction (r1 r2 : Row) : bool :=
  match valid_examples r1, invalid_examples r2 with
  | Some vs, Some ws => no_common_value vs ws
  | _, _ => true
  end.

Definition consistent (l : list Row) : bool :=
  forallb (fun r1 =>
    forallb (fun r2 => negb (same_rule r1 r2) || no_contradiction r1 r2) l) l.

(** The target [t] does not occur in [l]. *)
Definition target_absent (t : pyobj) (l : list Row) : bool :=
  forallb (fun r => negb (pyobj_eqb (field_type r) t)) l.

(** Rows of one target are adjacent: wherever the target changes from
    one row to the next, the old target never comes back. *)
Fixpoint grouped (l : list Row) : bool :=
  match l with
  | [] => true
  | a :: l' =>
      match l' with
      | [] => true
      | b :: _ =>
          (pyobj_eqb (field_type a) (field_type b)
           || target_absent (field_type a) l')
          && grouped l'
      end
  end.

(** ** Wire channel and representations *)

(** The channel is ['JSON'] or ['Python & JSON']. *)
Definition includes_wire (r : Row) : bool :=
  String.eqb (input_format r) "JSON" || String.eqb (input_format r) "Python & JSON".

(** Named types whose values JSON text carries directly, and [Any]. *)
Definition json_names : list string := ["str"; "int"; "float"; "bool"; "Any"].

(** The IP address and interface classes of [pydantic.networks]. *)
Definition ip_names : list string :=
  ["IPv4Address"; "IPv4Interface"; "IPv6Address"; "IPv6Interface"].

(** A representation that exists only as an in-memory object: a named
    type other than the JSON ones.  String placeholders and [None]
    (JSON [null]) are not native-only. *)
Definition native_only (o : pyobj) : bool :=
  match o with
  | PyName n => negb (str_in n json_names)
  | PyStr _ => false
  | PyNone => false
  end.

Definition is_named (o : pyobj) (l : list string) : bool :=
  match o with
  | PyName n => str_in n l
  | _ => false
  end.

(** A wire row whose input is native-only and which has no condition at
    all, hence none stating an encoding. *)
Definition wire_native_unconditioned (r : Row) : bool :=
  includes_wire r && native_only (input_type r)
  && match condition r with None => true | Some _ => false end.

(** Positions of the rows of [l] satisfying [p], counted from [i]. *)
Fixpoint positions_from (i : nat) (p : Row -> bool) (l : list Row) : list nat :=
  match l with
  | [] => []
  | r :: l' => if p r then i :: positions_from (S i) p l' else positions_from (S i) p l'
  end.

Definition positions (p : Row -> bool) (l : list Row) : list nat :=
  positions_from 0 p l.

(** The target is a named object, or the row is the one documenting the
    [None] type. *)
Definition target_named_or_none_type (r : Row) : bool :=
  match field_type r with
  | PyName n => negb (String.eqb n EmptyString)
  | PyStr _ => false
  | PyNone => documents_none_type r
  end.

(** What the table does on the wire channel: never [bytes], [bytearray]
    or [Decimal] as input, and a native-only input only as an IP class
    in a Lax ['Python & JSON'] row without condition. *)
Definition wire_row_ok (r : Row) : bool :=
  negb (includes_wire r)
  || (negb (is_named (input_type r) ["bytes"; "bytearray"; "Decimal"])
      && (negb (native_only (input_type r))
          || (is_named (input_type r) ip_names
              && String.eqb (mode r) "Lax"
              && String.eqb (input_format r) "Python & JSON"
              && match condition r with None => true | Some _ => false end))).

Definition valid_examples_empty (r : Row) : bool :=
  match valid_examples r with Some [] => true | _ => false end.

Definition invalid_examples_empty (r : Row) : bool :=
  match invalid_examples r with Some [] => true | _ => false end.

Definition valid_examples_absent (r : Row) : bool :=
  match valid_examples r with None => true | Some _ => false end.

(** ** Catalogue views *)

(** Modelled from the spec: the module defines no catalogue type; the
    documentation's Catalog is "an ordered collection of Entries,
    insertion order preserved", here the list of rows itself. *)
Definition Catalog : Type := list Row.

(** Modelled from the spec: [all] is absent from the module; it
    "returns entries in authoring order; side-effect free". *)
Definition all (c : Catalog) : list Row := c.

(** Modelled from the spec: [by_mode] is absent from the module; it
    yields all entries whose mode equals the given one, "preserving
    catalog order", and the empty sequence if none match. *)
Definition by_mode (m : string) (c : Catalog) : list Row :=
  filter (fun e => String.eqb (mode e) m) c.

(** A catalogue all of whose modes belong to the declared enumeration. *)
Definition valid_modes (c : Catalog) : bool := forallb mode_ok c.

(** ** Renderer *)

(** Modelled from the spec: a table cell is absent from the module;
    "missing optional fields render as an explicit empty marker, not as
    an omitted column". *)
Inductive cell : Type :=
| Text (s : string)
| EmptyMarker.

(** Modelled from the spec: the fixed column schema, "stable column
    order: target_type, input_representation, mode, channel, condition,
    implementing_schema_kinds". *)
Definition columns : list string :=
  ["target_type"; "input_representation"; "mode"; "channel"; "condition";
   "implementing_schema_kinds"].

(** Modelled from the spec: "examples are rendered as a secondary,
    optional block per entry rather than inline cells".  The block keeps
    the two lists apart, and an empty list apart from an absent one. *)
Record ExampleBlock : Type := mkExampleBlock {
  shown_valid : option (list string);
  shown_invalid : option (list string)
}.

(** Modelled from the spec: one rendered row, its cells and its
    optional block of examples. *)
Record TableRow : Type := mkTableRow {
  cells : list cell;
  examples : option ExampleBlock
}.

(** Modelled from the spec: a Table is "ordered rows of ordered named
    cells". *)
Record Table : Type := mkTable {
  header : list string;
  rows : list TableRow
}.

Section Renderer.

(** The documentation fixes neither how delimiter characters are
    escaped nor how a type object, a list of schema kinds or an example
    value is spelled; the renderer is parametric in all four. *)
Variable escape : string -> string.
Variable show : pyobj -> string.
Variable show_kinds : list pyobj -> string.
Variable show_value : pyval -> string.

Definition optional_cell {A : Type} (f : A -> string) (o : option A) : cell :=
  match o with
  | Some a => Text (escape (f a))
  | None => EmptyMarker
  end.

(** Modelled from the spec: the six cells of an entry, in column
    order. *)
Definition render_cells (e : Row) : list cell :=
  [ Text (escape (show (field_type e)));
    Text (escape (show (input_type e)));
    Text (escape (mode e));
    Text (escape (input_format e));
    optional_cell (fun c => c) (condition e);
    optional_cell show_kinds (core_schemas e) ].

Definition shown_examples (o : option (list pyval)) : option (list string) :=
  option_map (map (fun v => escape (show_value v))) o.

(** Modelled from the spec: the block of examples is left out when the
    entry gives neither list. *)
Definition render_examples (e : Row) : option ExampleBlock :=
  match valid_examples e, invalid_examples e with
  | None, None => None
  | vs, ws =>
      Some {| shown_valid := shown_examples vs; shown_invalid := shown_examples ws |}
  end.

(** Modelled from the spec: one entry becomes one row. *)
Definition render_row (e : Row) : TableRow :=
  {| cells := render_cells e; examples := render_examples e |}.

(** Modelled from the spec: [render_table] is absent from the module;
    it turns a sequence of entries into a rectangular table, a pure
    function of its input. *)
Definition render_table (entries : list Row) : Table :=
  {| header := columns; rows := map render_row entries |}.

End Renderer.

(** The entry [e] with other example lists. *)
Definition with_examples (e : Row) (vs ws : option (list pyval)) : Row :=
  {| field_type := field_type e;
     input_type := input_type e;
     mode := mode e;
     input_format := input_format e;
     condition := condition e;
     valid_examples := vs;
     invalid_examples := ws;
     core_schemas := core_schemas e |}.

(** The plain spelling of an object, used to run the renderer. *)
Definition plain_show (o : pyobj) : string :=
  match o with
  | PyName n => n
  | PyStr s => s
  | PyNone => "None"
  end.

Definition plain_kinds (l : list pyobj) : string :=
  String.concat ", " (map plain_show l).

(** ** Further checks on the table *)

(** The four positional fields, which identify a rule. *)
Definition row_key_eqb (a b : Row) : bool :=
  pyobj_eqb (field_type a) (field_type b)
  && pyobj_eqb (input_type a) (input_type b)
  && String.eqb (mode a) (mode b)
  && String.eqb (input_format a) (input_format b).

Fixpoint keys_distinct (l : list Row) : bool :=
  match l with
  | [] => true
  | a :: l' => negb (existsb (row_key_eqb a) l') && keys_distinct l'
  end.

(** Some row of [l] documents target [t] in Strict mode. *)
Definition has_strict_rule (l : list Row) (t : pyobj) : bool :=
  existsb (fun r => pyobj_eqb (field_type r) t && String.eqb (mode r) "Strict") l.

(** After a Lax row, every later row of the same target is Lax. *)
Fixpoint strict_first (l : list Row) : bool :=
  match l with
  | [] => true
  | a :: l' =>
      (negb (String.eqb (mode a) "Lax")
       || forallb (fun b => negb (pyobj_eqb (field_type a) (field_type b))
                            || String.eqb (mode b) "Lax") l')
      && strict_first l'
  end.

Definition json_only_is_strict (r : Row) : bool :=
  negb (String.eqb (input_format r) "JSON") || String.eqb (mode r) "Strict".

(** The class of an example value, by the name the module imports it
    under. *)
Definition class_of (v : pyval) : string :=
  match v with
  | VBool _ => "bool"
  | VInt _ => "int"
  | VFloat _ => "float"
  | VDecimal _ _ => "Decimal"
  | VStr _ => "str"
  | VBytes _ => "bytes"
  | VByteArray _ => "bytearray"
  | VDate _ _ _ => "date"
  | VDatetime _ _ _ _ _ _ _ => "datetime"
  | VTuple _ => "tuple"
  end.

(** [issubclass] among these classes: [bool] derives from [int] and
    [datetime] from [date]. *)
Definition py_issubclass (c d : string) : bool :=
  String.eqb c d
  || (String.eqb c "bool" && String.eqb d "int")
  || (String.eqb c "datetime" && String.eqb d "date").

(** [isinstance(v, cls)] for a class given by name. *)
Definition py_isinstance (v : pyval) (cls : string) : bool :=
  py_issubclass (class_of v) cls.

(** Where the input type is a named object, every valid example is an
    instance of it. *)
Definition valid_examples_typed (r : Row) : bool :=
  match input_type r, valid_examples r with
  | PyName n, Some vs => forallb (fun v => py_isinstance v n) vs
  | _, _ => true
  end.

Definition invalid_examples_explained (r : Row) : bool :=
  match invalid_examples r, condition r with
  | Some _, None => false
  | _, _ => true
  end.

Fixpoint pyobjs_eqb (x y : list pyobj) : bool :=
  match x, y with
  | [], [] => true
  | a :: x', b :: y' => pyobj_eqb a b && pyobjs_eqb x' y'
  | _, _ => false
  end.

Definition schemas_eqb (a b : option (list pyobj)) : bool :=
  match a, b with
  | Some x, Some y => pyobjs_eqb x y
  | None, None => true
  | _, _ => false
  end.

(** Rows agreeing on target, mode and input format name the same schema
    kinds. *)
Definition schemas_by_rule (l : list Row) : bool :=
  forallb (fun r1 =>
    forallb (fun r2 =>
      negb (pyobj_eqb (field_type r1) (field_type r2)
            && String.eqb (mode r1) (mode r2)
            && String.eqb (input_format r1) (input_format r2))
      || schemas_eqb (core_schemas r1) (core_schemas r2)) l) l.

(** [s.encode()] on an ASCII string; other values are left alone. *)
Definition encode (v : pyval) : pyval :=
  match v with
  | VStr s => VBytes (list_byte_of_string s)
  | _ => v
  end.

(** The two lists have the same length and equal items, position by
    position. *)
Fixpoint values_eqb (x y : list pyval) : bool :=
  match x, y with
  | [], [] => true
  | a :: x', b :: y' => py_eq a b && values_eqb x' y'
  | _, _ => false
  end.

(** Whenever a row with input [src] and a row with input [dst] of one
    target both give the example list [sel], the second list equals the
    first one mapped through [conv]. *)
Definition mirrored (conv : pyval -> pyval) (src dst : string)
    (sel : Row -> option (list pyval)) (l : list Row) : bool :=
  forallb (fun rs =>
    forallb (fun rd =>
      negb (pyobj_eqb (field_type rs) (field_type rd)
            && pyobj_eqb (input_type rs) (PyName src)
            && pyobj_eqb (input_type rd) (PyName dst))
      || match sel rs, sel rd with
         | Some vs, Some ws => values_eqb (map conv vs) ws
         | _, _ => true
         end) l) l.

(** ** Loading a catalogue *)

(** Modelled from the spec: the failure raised at [load], "the catalog
    itself is structurally malformed". *)
Inductive LoadError : Type :=
| SchemaError.

Section Load.

(** The documentation does not fix when an example has a shape
    "incompatible with input_representation's declared shape"; the
    loader is parametric in that check. *)
Variable shape_ok : Row -> bool.

(** Modelled from the spec: the structural invariants of one entry:
    target type not empty, mode and channel within their enumerations,
    examples of a compatible shape. *)
Definition well_formed (e : Row) : bool :=
  has_target_type e && mode_ok e && input_format_ok e && shape_ok e.

(** Modelled from the spec: [load] is absent from the module; it
    "fails with SchemaError if any Entry violates a structural
    invariant" and is all-or-nothing. *)
Definition load (entries : list Row) : LoadError + Catalog :=
  if forallb well_formed entries then inr entries else inl SchemaError.

End Load.

(** ** Entries sharing a rule *)



Definition lax_is_python_or_both (r : Row) : bool :=
  negb (String.eqb (mode r) "Lax")
  || String.eqb (input_format r) "Python"
  || String.eqb (input_format r) "Python & JSON".

(** * Properties *)

(** ** Reflection lemmas *)

Lemma pyobj_eqb_eq (a b : pyobj) : pyobj_eqb a b = true <-> a = b.
Proof.
  destruct a as [x| x |], b as [y| y |]; simpl; split; intro H;
    try discriminate; try reflexivity.
  - apply String.eqb_eq in H. now subst.
  - injection H as ->. apply String.eqb_refl.
  - apply String.eqb_eq in H. now subst.
  - injection H as ->. apply String.eqb_refl.
Qed.

Lemma existsb_false {A : Type} (p : A -> bool) (l : list A) :
  existsb p l = false <-> forall x, In x l -> p x = false.
Proof.
  induction l as [| a l IH]; simpl.
  - split; [intros _ x [] | reflexivity].
  - rewrite orb_false_iff, IH. split.
    + intros [Ha Hl] x [<- | Hx]; auto.
    + intro H. split; [apply H; now left | intros x Hx; apply H; now right].
Qed.

Lemma no_common_value_spec (vs ws : list pyval) :
  no_common_value vs ws = true <->
  forall v w, In v vs -> In w ws -> py_eq v w = false.
Proof.
  unfold no_common_value, py_in. rewrite forallb_forall. split.
  - intros H v w Hv Hw. specialize (H v Hv).
    apply negb_true_iff in H. now apply (proj1 (existsb_false _ _) H).
  - intros H v Hv. apply negb_true_iff, existsb_false.
    intros w Hw. now apply H.
Qed.

Lemma target_absent_spec (t : pyobj) (l : list Row) :
  target_absent t l = true <-> forall r, In r l -> field_type r <> t.
Proof.
  unfold target_absent. rewrite forallb_forall. split.
  - intros H r Hr E. specialize (H r Hr). apply negb_true_iff in H.
    apply pyobj_eqb_eq in E. congruence.
  - intros H r Hr. apply negb_true_iff.
    destruct (pyobj_eqb (field_type r) t) eqn:E; [| reflexivity].
    apply pyobj_eqb_eq in E. now elim (H r Hr).
Qed.

Lemma grouped_cons (a b : Row) (l : list Row) :
  grouped (a :: b :: l) =
  (pyobj_eqb (field_type a) (field_type b) || target_absent (field_type a) (b :: l))
  && grouped (b :: l).
Proof. reflexivity. Qed.

Lemma grouped_tail (a : Row) (l : list Row) :
  grouped (a :: l) = true -> grouped l = true.
Proof.
  destruct l as [| b l]; [reflexivity |].
  rewrite grouped_cons. intro H. now apply andb_true_iff in H.
Qed.

(** In a grouped list, once the head's target reappears at some later
    position, every row in between has that target too. *)
Lemma grouped_run (l : list Row) :
  forall (a : Row) (j k : nat) (b c : Row),
    grouped (a :: l) = true ->
    (j < k)%nat ->
    nth_error l j = Some b ->
    nth_error l k = Some c ->
    field_type c = field_type a ->
    field_type b = field_type a.
Proof.
  induction l as [| y l IH]; intros a j k b c Hg Hjk Hb Hc Hca.
  - destruct j; discriminate.
  - assert (Hay : field_type a = field_type y).
    { rewrite grouped_cons in Hg. apply andb_true_iff in Hg. destruct Hg as [Hg _].
      apply orb_true_iff in Hg. destruct Hg as [Hg | Hg].
      - now apply pyobj_eqb_eq.
      - exfalso.
        apply (proj1 (target_absent_spec _ _) Hg c); [| exact Hca].
        eapply nth_error_In; eassumption. }
    destruct j as [| j].
    + simpl in Hb. injection Hb as <-. now symmetry.
    + destruct k as [| k]; [lia |].
      simpl in Hb, Hc. rewrite Hay.
      apply (IH y j k b c); [now apply grouped_tail in Hg | lia | | | congruence];
        assumption.
Qed.

Lemma grouped_spec (l : list Row) :
  grouped l = true ->
  forall (i j k : nat) (a b c : Row),
    (i < j < k)%nat ->
    nth_error l i = Some a ->
    nth_error l j = Some b ->
    nth_error l k = Some c ->
    field_type a = field_type c ->
    field_type b = field_type a.
Proof.
  induction l as [| x l IH]; intros Hg i j k a b c Hijk Ha Hb Hc Hac.
  - destruct i; discriminate.
  - destruct i as [| i].
    + simpl in Ha. injection Ha as <-.
      destruct j as [| j]; [lia |]. destruct k as [| k]; [lia |].
      simpl in Hb, Hc.
      apply (grouped_run l x j k b c); auto; lia.
    + destruct j as [| j]; [lia |]. destruct k as [| k]; [lia |].
      simpl in Ha, Hb, Hc.
      apply (IH (grouped_tail _ _ Hg) i j k a b c); auto; lia.
Qed.

Lemma positions_from_spec (p : Row -> bool) (l : list Row) :
  forall (i n : nat),
    In n (positions_from i p l) <->
    exists r, (i <= n)%nat /\ nth_error l (n - i) = Some r /\ p r = true.
Proof.
  induction l as [| x l IH]; intros i n; simpl.
  - split; [intros [] |]. intros (r & _ & H & _). destruct (n - i)%nat; discriminate.
  - assert (Hstep : In n (positions_from (S i) p l) <->
                    exists r, (i < n)%nat /\ nth_error (x :: l) (n - i) = Some r /\ p r = true).
    { rewrite IH. split; intros (r & Hle & Hn & Hp); exists r; repeat split; auto; try lia.
      - replace (n - i)%nat with (S (n - S i)) by lia. exact Hn.
      - replace (n - i)%nat with (S (n - S i)) in Hn by lia. exact Hn. }
    destruct (p x) eqn:Hx.
    + simpl. rewrite Hstep. split.
      * intros [<- | (r & Hlt & Hn & Hp)].
        -- exists x. rewrite Nat.sub_diag. auto.
        -- exists r. repeat split; auto; lia.
      * intros (r & Hle & Hn & Hp).
        destruct (Nat.eq_dec i n) as [-> | Hne]; [now left | right].
        exists r. repeat split; auto; lia.
    + rewrite Hstep. split.
      * intros (r & Hlt & Hn & Hp). exists r. repeat split; auto; lia.
      * intros (r & Hle & Hn & Hp).
        destruct (Nat.eq_dec i n) as [-> | Hne].
        -- rewrite Nat.sub_diag in Hn. simpl in Hn. congruence.
        -- exists r. repeat split; auto; lia.
Qed.

Lemma positions_spec (p : Row -> bool) (l : list Row) (n : nat) :
  In n (positions p l) <-> exists r, nth_error l n = Some r /\ p r = true.
Proof.
  unfold positions. rewrite positions_from_spec. rewrite Nat.sub_0_r.
  split; intros H.
  - destruct H as (r & _ & H). now exists r.
  - destruct H as (r & H). exists r. split; [lia | exact H].
Qed.

(** ** Facts about the table, by evaluation *)

Lemma table_length : List.length table = 190%nat.
Proof. vm_compute. reflexivity. Qed.

Lemma table_modes : forallb mode_ok table = true.
Proof. vm_compute. reflexivity. Qed.

Lemma table_targets : forallb target_named_or_none_type table = true.
Proof. vm_compute. reflexivity. Qed.

Lemma table_examples_disjoint : forallb examples_disjoint table = true.
Proof. vm_compute. reflexivity. Qed.

Lemma table_grouped : grouped table = true.
Proof. vm_compute. reflexivity. Qed.

Lemma table_consistent : consistent table = true.
Proof. vm_compute. reflexivity. Qed.

Lemma table_wire_rows : forallb wire_row_ok table = true.
Proof. vm_compute. reflexivity. Qed.

Lemma table_names_schema : forallb names_schema table = true.
Proof. vm_compute. reflexivity. Qed.

(** ** Enumerations of [mode] and [input_format] *)

(** C1, as the code has it: row 96 of the table (source lines 836-842,
    deque from 'Array', Strict) carries the input format 'Json', which is
    none of the declared literals 'Python', 'JSON', 'Python & JSON'; the
    row was constructed and stored all the same.  It is the only row
    whose input format is outside the enumeration, and every mode of the
    table is 'Lax' or 'Strict'. *)
Theorem input_format_outside_declared_literal :
  (exists r,
      nth_error table 96 = Some r /\
      field_type r = PyName "deque" /\
      input_type r = PyStr "Array" /\
      mode r = "Strict" /\
      input_format r = "Json" /\
      input_format_ok r = false) /\
  positions (fun r => negb (input_format_ok r)) table = [96%nat] /\
  forallb mode_ok table = true.
Proof.
  split; [| split].
  - eexists. split; [reflexivity |]. repeat split.
  - vm_compute. reflexivity.
  - exact table_modes.
Qed.

(** ** Target types *)

(** Of what kind the target types of the table are: a named object
    with a non-empty name, or [None] for the None type, in which case
    the input type is [None] too and the rule is realised by
    [NoneSchema]; none is a string. *)
Lemma target_type_named_or_none_type :
  forall r, In r table ->
    (exists n, field_type r = PyName n /\ n <> EmptyString) \/
    (field_type r = PyNone /\ input_type r = PyNone /\
     core_schemas r = Some [PyName "core_schema.NoneSchema"]).
Proof.
  intros r Hr.
  pose proof (proj1 (forallb_forall _ _) table_targets r Hr) as H.
  unfold target_named_or_none_type in H.
  destruct (field_type r) as [n | s |] eqn:Ef.
  - left. exists n. split; [reflexivity |].
    intros ->. discriminate.
  - discriminate.
  - right. unfold documents_none_type in H. rewrite Ef in H.
    apply andb_true_iff in H. destruct H as [H Hs].
    apply andb_true_iff in H. destruct H as [_ Hi].
    apply pyobj_eqb_eq in Hi.
    destruct (core_schemas r) as [[| s [| s' l]] |]; try discriminate.
    apply pyobj_eqb_eq in Hs. subst s. auto.
Qed.

(** The row documenting the None type is row 25 and no other. *)
Lemma none_type_row :
  positions (fun r => pyobj_eqb (field_type r) PyNone) table = [25%nat].
Proof. vm_compute. reflexivity. Qed.

Lemma table_has_target_types : forallb has_target_type table = true.
Proof. vm_compute. reflexivity. Qed.

Lemma load_inr (shape_ok : Row -> bool) (entries : list Row) (c : Catalog) :
  load shape_ok entries = inr c ->
  c = entries /\ forallb (well_formed shape_ok) entries = true.
Proof.
  unfold load. destruct (forallb (well_formed shape_ok) entries); intro H.
  - injection H as <-. split; reflexivity.
  - discriminate.
Qed.

Lemma load_ill_formed (shape_ok : Row -> bool) (entries : list Row) (e : Row) :
  In e entries ->
  well_formed shape_ok e = false ->
  load shape_ok entries = inl SchemaError.
Proof.
  intros He Hw. unfold load.
  destruct (forallb (well_formed shape_ok) entries) eqn:Hall; [| reflexivity].
  rewrite (proj1 (forallb_forall _ _) Hall e He) in Hw. discriminate.
Qed.

(** The table as written does not load: row 96 has a channel outside
    the enumeration. *)
Lemma load_rejects_table (shape_ok : Row -> bool) :
  load shape_ok table = inl SchemaError.
Proof.
  apply (load_ill_formed shape_ok table)
    with (e := mkRow (PyName "deque") (PyStr "Array") "Strict" "Json" None None None
                     (Some [PyName "core_schema.WrapValidatorFunctionSchema"])).
  - apply (nth_error_In table 96). reflexivity.
  - reflexivity.
Qed.

(** C2: every entry of the table has a target type that is not empty
    (row 25 gives [None], the type it documents); every entry of a
    catalogue that [load] returns has one, the catalogue being the
    sequence that was loaded; and [load] fails with [SchemaError] as
    soon as one entry of the sequence has an empty target type. *)
Theorem every_entry_has_target_type :
  (forall r, In r table -> has_target_type r = true) /\
  (forall (shape_ok : Row -> bool) (entries : list Row) (c : Catalog),
      load shape_ok entries = inr c ->
      c = entries /\ forall e, In e c -> has_target_type e = true) /\
  (forall (shape_ok : Row -> bool) (entries : list Row) (e : Row),
      In e entries ->
      has_target_type e = false ->
      load shape_ok entries = inl SchemaError).
Proof.
  split; [| split].
  - exact (proj1 (forallb_forall _ _) table_has_target_types).
  - intros shape_ok entries c Hl.
    destruct (load_inr shape_ok entries c Hl) as [-> Hall].
    split; [reflexivity |]. intros e He.
    pose proof (proj1 (forallb_forall _ _) Hall e He) as Hw.
    unfold well_formed in Hw.
    destruct (has_target_type e); [reflexivity | discriminate].
  - intros shape_ok entries e He Ht.
    apply (load_ill_formed shape_ok entries e He).
    unfold well_formed. rewrite Ht. reflexivity.
Qed.

Lemma every_entry_has_target_type_witness :
  (exists r,
      nth_error table 25 = Some r /\
      field_type r = PyNone /\
      has_target_type r = true) /\
  (load (fun _ => true) (firstn 26 table) = inr (firstn 26 table) /\
   forall e, In e (firstn 26 table) -> has_target_type e = true) /\
  load (fun _ => true)
       [mkRow (PyStr EmptyString) (PyName "str") "Strict" "Python" None None None None]
  = inl SchemaError.
Proof.
  destruct every_entry_has_target_type as (Ht & Hl & He).
  split; [| split].
  - eexists. split; [reflexivity |]. split; [reflexivity |].
    apply Ht. apply (nth_error_In table 25). reflexivity.
  - split; [vm_compute; reflexivity |].
    apply (Hl (fun _ => true) (firstn 26 table) (firstn 26 table)).
    vm_compute. reflexivity.
  - eapply He; [left; reflexivity | reflexivity].
Defined.

(** ** Examples *)

(** C3: for every entry of the table that has both example lists, no
    valid example equals an invalid example, in either direction of
    Python's equality. *)
Theorem valid_invalid_examples_disjoint :
  forall r vs ws,
    In r table ->
    valid_examples r = Some vs ->
    invalid_examples r = Some ws ->
    forall v w, In v vs -> In w ws ->
      py_eq v w = false /\ py_eq w v = false.
Proof.
  intros r vs ws Hr Hv Hw v w Hvin Hwin.
  pose proof (proj1 (forallb_forall _ _) table_examples_disjoint r Hr) as H.
  unfold examples_disjoint in H. rewrite Hv, Hw in H.
  apply andb_true_iff in H. destruct H as [H1 H2].
  split.
  - exact (proj1 (no_common_value_spec vs ws) H1 v w Hvin Hwin).
  - exact (proj1 (no_common_value_spec ws vs) H2 w v Hwin Hvin).
Qed.

Lemma valid_invalid_examples_disjoint_witness :
  py_eq (VBytes (list_byte_of_string "this is bytes")) (VBytes [x81]) = false /\
  py_eq (VBytes [x81]) (VBytes (list_byte_of_string "this is bytes")) = false.
Proof.
  eapply valid_invalid_examples_disjoint.
  - apply (nth_error_In table 1). reflexivity.
  - reflexivity.
  - reflexivity.
  - left. reflexivity.
  - left. reflexivity.
Defined.

(** ** Order and grouping *)

(** C4: the table is grouped by target type: whenever two rows have the
    same target type, every row between them in the list has that target
    type as well. *)
Theorem table_grouped_by_target :
  forall (i j k : nat) (a b c : Row),
    (i < j < k)%nat ->
    nth_error table i = Some a ->
    nth_error table j = Some b ->
    nth_error table k = Some c ->
    field_type a = field_type c ->
    field_type b = field_type a.
Proof. exact (grouped_spec table table_grouped). Qed.

Lemma table_grouped_by_target_witness :
  exists a b c,
    (3 < 4 < 6)%nat /\
    nth_error table 3 = Some a /\
    nth_error table 4 = Some b /\
    nth_error table 6 = Some c /\
    field_type a = field_type c /\
    field_type b = field_type a.
Proof.
  do 3 eexists.
  split; [lia |].
  split; [reflexivity |].
  split; [reflexivity |].
  split; [reflexivity |].
  split; [reflexivity |].
  eapply (table_grouped_by_target 3 4 6); [lia | reflexivity ..].
Defined.




(** The rows that share target type, input type and input format with
    a row at another place are rows 7 and 8, int from int on
    'Python & JSON', Strict and Lax. *)
Lemma rows_sharing_a_rule :
  positions (fun r => Nat.ltb 1 (List.length (filter (same_rule r) table))) table
  = [7; 8]%nat.
Proof. vm_compute. reflexivity. Qed.



(** ** Wire channel *)

(** C6, refuted as stated: row 135 of the table (source lines
    1114-1120, IPv4Interface from IPv4Address, Lax) applies to
    'Python & JSON', its input type is a native class that JSON text
    does not carry, and it has no condition, hence none stating an
    encoding.  Rows 142, 143, 155, 162 and 163 are alike. *)
Lemma wire_row_with_native_only_input :
  (exists r,
      nth_error table 135 = Some r /\
      input_type r = PyName "IPv4Address" /\
      includes_wire r = true /\
      native_only (input_type r) = true /\
      condition r = None) /\
  ~ (forall r, In r table ->
       includes_wire r = true ->
       native_only (input_type r) = true ->
       condition r <> None).
Proof.
  assert (H : exists r,
             nth_error table 135 = Some r /\
             input_type r = PyName "IPv4Address" /\
             includes_wire r = true /\
             native_only (input_type r) = true /\
             condition r = None).
  { eexists. split; [reflexivity |]. repeat split. }
  split; [exact H |].
  intro Hall. destruct H as (r & Hn & _ & Hw & Hnat & Hc).
  apply nth_error_In in Hn. exact (Hall r Hn Hw Hnat Hc).
Qed.

(** C6, amended: no entry of the table whose input format is 'JSON' or
    'Python & JSON' has [bytes], [bytearray] or [Decimal] as input type;
    where such an entry has a native-only input type, that type is one
    of the classes IPv4Address, IPv4Interface, IPv6Address,
    IPv6Interface, and the entry is Lax, applies to 'Python & JSON' and
    has no condition. *)
Theorem wire_rows_input_types :
  forall r, In r table ->
    includes_wire r = true ->
    is_named (input_type r) ["bytes"; "bytearray"; "Decimal"] = false /\
    (native_only (input_type r) = true ->
     is_named (input_type r) ip_names = true /\
     mode r = "Lax" /\
     input_format r = "Python & JSON" /\
     condition r = None).
Proof.
  intros r Hr Hw.
  pose proof (proj1 (forallb_forall _ _) table_wire_rows r Hr) as H.
  unfold wire_row_ok in H. rewrite Hw in H. simpl in H.
  apply andb_true_iff in H. destruct H as [Hb H].
  split; [now apply negb_true_iff in Hb |].
  intro Hn. rewrite Hn in H. simpl in H.
  apply andb_true_iff in H. destruct H as [H Hc].
  apply andb_true_iff in H. destruct H as [H Hf].
  apply andb_true_iff in H. destruct H as [Hip Hm].
  repeat split.
  - exact Hip.
  - now apply String.eqb_eq.
  - now apply String.eqb_eq.
  - destruct (condition r); [discriminate | reflexivity].
Qed.

Lemma wire_rows_input_types_witness :
  exists r,
    nth_error table 135 = Some r /\
    includes_wire r = true /\
    is_named (input_type r) ["bytes"; "bytearray"; "Decimal"] = false /\
    (native_only (input_type r) = true ->
     is_named (input_type r) ip_names = true /\
     mode r = "Lax" /\
     input_format r = "Python & JSON" /\
     condition r = None).
Proof.
  eexists.
  split; [reflexivity |].
  split; [reflexivity |].
  apply wire_rows_input_types.
  - apply (nth_error_In table 135). reflexivity.
  - reflexivity.
Defined.

(** The rows with a native-only input on the wire channel are exactly
    these six. *)
Lemma wire_native_rows :
  positions (fun r => includes_wire r && native_only (input_type r)) table
  = [135; 142; 143; 155; 162; 163]%nat.
Proof. vm_compute. reflexivity. Qed.

(** ** Partition by mode *)

Lemma mode_ok_cases (e : Row) :
  mode_ok e = true -> mode e = "Lax" \/ mode e = "Strict".
Proof.
  unfold mode_ok, str_in, modes. simpl.
  rewrite orb_false_r. intro H. apply orb_true_iff in H.
  destruct H as [H | H]; apply String.eqb_eq in H; auto.
Qed.

Lemma in_by_mode (m : string) (c : Catalog) (e : Row) :
  In e (by_mode m c) <-> In e c /\ mode e = m.
Proof.
  unfold by_mode. rewrite filter_In. now rewrite String.eqb_eq.
Qed.

(** C7: in a catalogue all of whose modes are 'Strict' or 'Lax', an
    entry belongs to [all] exactly when it belongs to [by_mode] of
    'Strict' or to [by_mode] of 'Lax', and no entry belongs to both. *)
Theorem by_mode_partition (c : Catalog) :
  valid_modes c = true ->
  (forall e, In e (all c) <-> In e (by_mode "Strict" c) \/ In e (by_mode "Lax" c)) /\
  (forall e, ~ (In e (by_mode "Strict" c) /\ In e (by_mode "Lax" c))).
Proof.
  intro Hc. split.
  - intro e. unfold all. rewrite !in_by_mode. split.
    + intro He.
      pose proof (proj1 (forallb_forall _ _) Hc e He) as Hm.
      destruct (mode_ok_cases e Hm); auto.
    + intros [[He _] | [He _]]; exact He.
  - intros e [Hs Hl]. apply in_by_mode in Hs, Hl.
    destruct Hs as [_ Hs], Hl as [_ Hl]. congruence.
Qed.

Lemma by_mode_partition_witness :
  valid_modes table = true /\
  (forall e, In e (all table) <->
             In e (by_mode "Strict" table) \/ In e (by_mode "Lax" table)) /\
  (forall e, ~ (In e (by_mode "Strict" table) /\ In e (by_mode "Lax" table))).
Proof.
  split.
  - vm_compute. reflexivity.
  - apply (by_mode_partition table). vm_compute. reflexivity.
Defined.

(** ** Rendering *)

(** C8: for a non-empty catalogue, [render_table] of [all] yields as
    many rows as there are entries, in the same order; the header is the
    fixed schema of six columns, and the row of entry [e] has exactly
    six cells: target type, input type, mode, input format, condition
    and schema kinds, in that order.  The cells do not depend on the
    example lists of [e]; these go to a separate block of the row, which
    is left out exactly when [e] gives neither list and otherwise holds
    the two lists as given. *)
Theorem render_table_shape
    (escape : string -> string) (show : pyobj -> string)
    (show_kinds : list pyobj -> string) (show_value : pyval -> string)
    (c : Catalog) :
  c <> [] ->
  let t := render_table escape show show_kinds show_value (all c) in
  header t = columns /\
  List.length (header t) = 6%nat /\
  List.length (rows t) = List.length (all c) /\
  (forall row, In row (rows t) -> List.length (cells row) = 6%nat) /\
  (forall i e, nth_error (all c) i = Some e ->
     exists row,
       nth_error (rows t) i = Some row /\
       cells row =
         [ Text (escape (show (field_type e)));
           Text (escape (show (input_type e)));
           Text (escape (mode e));
           Text (escape (input_format e));
           match condition e with
           | Some c => Text (escape c)
           | None => EmptyMarker
           end;
           match core_schemas e with
           | Some l => Text (escape (show_kinds l))
           | None => EmptyMarker
           end ] /\
       (forall vs ws,
           cells (render_row escape show show_kinds show_value
                             (with_examples e vs ws)) = cells row) /\
       (examples row = None <->
        valid_examples e = None /\ invalid_examples e = None) /\
       (forall b, examples row = Some b ->
          shown_valid b
          = option_map (map (fun v => escape (show_value v))) (valid_examples e) /\
          shown_invalid b
          = option_map (map (fun v => escape (show_value v))) (invalid_examples e))).
Proof.
  intros _ t. subst t. unfold all. simpl.
  split; [reflexivity |].
  split; [reflexivity |].
  split; [apply length_map |].
  split.
  - intros row Hrow. apply in_map_iff in Hrow.
    destruct Hrow as (e & <- & _). reflexivity.
  - intros i e He.
    exists (render_row escape show show_kinds show_value e).
    split; [rewrite nth_error_map, He; reflexivity |].
    split; [reflexivity |].
    split; [reflexivity |].
    unfold render_row, render_examples, shown_examples. simpl.
    destruct (valid_examples e) as [vs |], (invalid_examples e) as [ws |]; simpl.
    + split; [split; [discriminate | intros [H _]; discriminate] |].
      intros b Hb. injection Hb as <-. split; reflexivity.
    + split; [split; [discriminate | intros [H _]; discriminate] |].
      intros b Hb. injection Hb as <-. split; reflexivity.
    + split; [split; [discriminate | intros [_ H]; discriminate] |].
      intros b Hb. injection Hb as <-. split; reflexivity.
    + split; [split; auto |]. intros b Hb. discriminate.
Qed.

Lemma render_table_shape_witness :
  table <> [] /\
  List.length
    (rows (render_table (fun s => s) plain_show plain_kinds class_of (all table)))
  = List.length (all table).
Proof.
  split.
  - discriminate.
  - apply (render_table_shape (fun s => s) plain_show plain_kinds class_of table).
    discriminate.
Defined.

(** ** Schema kinds *)

(** C9: every row of the table gives [core_schemas], and the list it
    gives has at least one element. *)
Theorem every_row_names_a_schema :
  forall r, In r table ->
    exists s l, core_schemas r = Some (s :: l).
Proof.
  intros r Hr.
  pose proof (proj1 (forallb_forall _ _) table_names_schema r Hr) as H.
  unfold names_schema in H.
  destruct (core_schemas r) as [[| s l] |]; try discriminate.
  now exists s, l.
Qed.

Lemma every_row_names_a_schema_witness :
  exists r,
    nth_error table 105 = Some r /\
    exists s l, core_schemas r = Some (s :: l).
Proof.
  eexists. split; [reflexivity |].
  apply every_row_names_a_schema.
  apply (nth_error_In table 105). reflexivity.
Defined.

(** ** Empty and absent example lists *)

(** C10: rows 54 (dict from Mapping) and 58 (TypedDict from Mapping)
    carry the empty list as [valid_examples], which differs from [None];
    they are the only rows with an empty example list, while 128 rows,
    the first one among them, carry [None] as [valid_examples]. *)
Theorem empty_examples_distinct_from_absent :
  (exists r,
      nth_error table 54 = Some r /\
      field_type r = PyName "dict" /\ input_type r = PyName "Mapping" /\
      valid_examples r = Some [] /\ valid_examples r <> None) /\
  (exists r,
      nth_error table 58 = Some r /\
      field_type r = PyName "TypedDict" /\ input_type r = PyName "Mapping" /\
      valid_examples r = Some [] /\ valid_examples r <> None) /\
  positions valid_examples_empty table = [54; 58]%nat /\
  positions invalid_examples_empty table = [] /\
  List.length (positions valid_examples_absent table) = 128%nat /\
  (exists r,
      nth_error table 0 = Some r /\
      valid_examples r = None /\ invalid_examples r = None).
Proof.
  split; [| split; [| split; [| split; [| split]]]].
  - eexists. split; [reflexivity |]. repeat split. discriminate.
  - eexists. split; [reflexivity |]. repeat split. discriminate.
  - vm_compute. reflexivity.
  - vm_compute. reflexivity.
  - vm_compute. reflexivity.
  - eexists. split; [reflexivity |]. split; reflexivity.
Qed.

(** * Further properties of the table *)

(** ** Reflection lemmas *)

Lemma row_key_eqb_intro (a b : Row) :
  field_type a = field_type b ->
  input_type a = input_type b ->
  mode a = mode b ->
  input_format a = input_format b ->
  row_key_eqb a b = true.
Proof.
  intros Hf Hi Hm Hc. unfold row_key_eqb.
  rewrite (proj2 (pyobj_eqb_eq _ _) Hf), (proj2 (pyobj_eqb_eq _ _) Hi).
  rewrite (proj2 (String.eqb_eq _ _) Hm), (proj2 (String.eqb_eq _ _) Hc).
  reflexivity.
Qed.

Lemma keys_distinct_head (a : Row) (l : list Row) (j : nat) (b : Row) :
  keys_distinct (a :: l) = true ->
  nth_error l j = Some b ->
  row_key_eqb a b = false.
Proof.
  simpl. intros H Hb. apply andb_true_iff in H. destruct H as [H _].
  apply negb_true_iff in H.
  apply (proj1 (existsb_false _ _) H). eapply nth_error_In; eassumption.
Qed.

Lemma keys_distinct_spec (l : list Row) :
  keys_distinct l = true ->
  forall (i j : nat) (a b : Row),
    nth_error l i = Some a ->
    nth_error l j = Some b ->
    field_type a = field_type b ->
    input_type a = input_type b ->
    mode a = mode b ->
    input_format a = input_format b ->
    i = j.
Proof.
  induction l as [| x l IH]; intros Hd i j a b Ha Hb Hf Hi Hm Hc.
  - destruct i; discriminate.
  - destruct i as [| i], j as [| j]; simpl in Ha, Hb.
    + reflexivity.
    + injection Ha as <-.
      pose proof (keys_distinct_head x l j b Hd Hb) as Hk.
      rewrite (row_key_eqb_intro x b Hf Hi Hm Hc) in Hk. discriminate.
    + injection Hb as <-.
      pose proof (keys_distinct_head x l i a Hd Ha) as Hk.
      rewrite (row_key_eqb_intro x a) in Hk; [discriminate | congruence ..].
    + f_equal. simpl in Hd. apply andb_true_iff in Hd. destruct Hd as [_ Hd].
      exact (IH Hd i j a b Ha Hb Hf Hi Hm Hc).
Qed.

Lemma strict_first_spec (l : list Row) :
  strict_first l = true ->
  forall (i j : nat) (a b : Row),
    (i < j)%nat ->
    nth_error l i = Some a ->
    nth_error l j = Some b ->
    field_type a = field_type b ->
    mode a = "Lax" ->
    mode b = "Lax".
Proof.
  induction l as [| x l IH]; intros Hs i j a b Hij Ha Hb Hf Hm.
  - destruct i; discriminate.
  - simpl in Hs. apply andb_true_iff in Hs. destruct Hs as [Hx Hs].
    destruct j as [| j]; [lia |]. simpl in Hb.
    destruct i as [| i]; simpl in Ha.
    + injection Ha as <-.
      rewrite (proj2 (String.eqb_eq _ _) Hm) in Hx. simpl in Hx.
      pose proof (proj1 (forallb_forall _ _) Hx b (nth_error_In _ _ Hb)) as H.
      cbv beta in H.
      rewrite (proj2 (pyobj_eqb_eq _ _) Hf) in H. simpl in H.
      now apply String.eqb_eq.
    + apply (IH Hs i j a b); auto. lia.
Qed.

Lemma pyobjs_eqb_eq (x y : list pyobj) : pyobjs_eqb x y = true -> x = y.
Proof.
  revert y. induction x as [| a x IH]; intros [| b y] H; simpl in H;
    try discriminate; [reflexivity |].
  apply andb_true_iff in H. destruct H as [Hab H].
  apply pyobj_eqb_eq in Hab. subst b. f_equal. now apply IH.
Qed.

Lemma schemas_eqb_eq (a b : option (list pyobj)) :
  schemas_eqb a b = true -> a = b.
Proof.
  destruct a as [x |], b as [y |]; simpl; intro H; try discriminate;
    [| reflexivity].
  f_equal. now apply pyobjs_eqb_eq.
Qed.

Lemma values_eqb_map (conv : pyval -> pyval) (vs ws : list pyval) :
  values_eqb (map conv vs) ws = true ->
  Forall2 (fun v w => py_eq (conv v) w = true) vs ws.
Proof.
  revert ws. induction vs as [| v vs IH]; intros [| w ws] H; simpl in H;
    try discriminate.
  - constructor.
  - apply andb_true_iff in H. destruct H as [Hvw H].
    constructor; [exact Hvw | now apply IH].
Qed.

Lemma mirrored_spec (conv : pyval -> pyval) (src dst : string)
    (sel : Row -> option (list pyval)) (l : list Row) :
  mirrored conv src dst sel l = true ->
  forall rs rd vs ws,
    In rs l -> In rd l ->
    field_type rs = field_type rd ->
    input_type rs = PyName src ->
    input_type rd = PyName dst ->
    sel rs = Some vs ->
    sel rd = Some ws ->
    Forall2 (fun v w => py_eq (conv v) w = true) vs ws.
Proof.
  intros H rs rd vs ws Hs Hd Hf His Hid Hvs Hws.
  pose proof (proj1 (forallb_forall _ _) H rs Hs) as H1.
  pose proof (proj1 (forallb_forall _ _) H1 rd Hd) as H2.
  cbv beta in H2.
  rewrite (proj2 (pyobj_eqb_eq _ _) Hf), His, Hid, Hvs, Hws in H2.
  simpl in H2. rewrite !String.eqb_refl in H2. simpl in H2.
  now apply values_eqb_map.
Qed.

(** ** Facts about the table, by evaluation *)

Lemma table_keys : keys_distinct table = true.
Proof. vm_compute. reflexivity. Qed.

Lemma table_strict_rules :
  forallb (fun r => has_strict_rule table (field_type r)) table = true.
Proof. vm_compute. reflexivity. Qed.

Lemma table_strict_first : strict_first table = true.
Proof. vm_compute. reflexivity. Qed.

Lemma table_json_only : forallb json_only_is_strict table = true.
Proof. vm_compute. reflexivity. Qed.

Lemma table_valid_typed : forallb valid_examples_typed table = true.
Proof. vm_compute. reflexivity. Qed.

Lemma table_invalid_explained : forallb invalid_examples_explained table = true.
Proof. vm_compute. reflexivity. Qed.

Lemma table_schemas_by_rule : schemas_by_rule table = true.
Proof. vm_compute. reflexivity. Qed.

Lemma table_bytes_mirror_valid :
  mirrored encode "str" "bytes" valid_examples table = true.
Proof. vm_compute. reflexivity. Qed.

Lemma table_bytes_mirror_invalid :
  mirrored encode "str" "bytes" invalid_examples table = true.
Proof. vm_compute. reflexivity. Qed.

Lemma table_decimal_mirror_valid :
  mirrored (fun v => v) "float" "Decimal" valid_examples table = true.
Proof. vm_compute. reflexivity. Qed.

(** ** Rules are documented once *)

(** X1: no two rows of the table agree on target type, input type, mode
    and input format: each such combination is documented at one
    position only. *)
Theorem table_keys_distinct :
  forall (i j : nat) (a b : Row),
    nth_error table i = Some a ->
    nth_error table j = Some b ->
    field_type a = field_type b ->
    input_type a = input_type b ->
    mode a = mode b ->
    input_format a = input_format b ->
    i = j.
Proof. exact (keys_distinct_spec table table_keys). Qed.

Lemma table_keys_distinct_witness :
  exists a,
    nth_error table 7 = Some a /\ 7%nat = 7%nat.
Proof.
  eexists. split; [reflexivity |].
  eapply (table_keys_distinct 7 7); reflexivity.
Defined.

(** ** Strict and Lax rows *)

(** X2: every target type of the table has at least one Strict row. *)
Theorem every_target_has_strict_rule :
  forall r, In r table ->
    exists r', In r' table /\ field_type r' = field_type r /\ mode r' = "Strict".
Proof.
  intros r Hr.
  pose proof (proj1 (forallb_forall _ _) table_strict_rules r Hr) as H.
  cbv beta in H. unfold has_strict_rule in H.
  apply existsb_exists in H. destruct H as (r' & Hr' & H).
  apply andb_true_iff in H. destruct H as [Hf Hm].
  exists r'. split; [exact Hr' |]. split.
  - now apply pyobj_eqb_eq.
  - now apply String.eqb_eq.
Qed.

Lemma every_target_has_strict_rule_witness :
  exists r,
    nth_error table 100 = Some r /\
    exists r', In r' table /\ field_type r' = field_type r /\ mode r' = "Strict".
Proof.
  eexists. split; [reflexivity |].
  apply every_target_has_strict_rule.
  apply (nth_error_In table 100). reflexivity.
Defined.

(** X3: within one target type the Strict rows come first: a row that
    follows a Lax row of the same target type is Lax. *)
Theorem strict_rows_precede_lax :
  forall (i j : nat) (a b : Row),
    (i < j)%nat ->
    nth_error table i = Some a ->
    nth_error table j = Some b ->
    field_type a = field_type b ->
    mode a = "Lax" ->
    mode b = "Lax".
Proof. exact (strict_first_spec table table_strict_first). Qed.

Lemma strict_rows_precede_lax_witness :
  exists a b,
    (8 < 13)%nat /\
    nth_error table 8 = Some a /\
    nth_error table 13 = Some b /\
    field_type a = field_type b /\
    mode a = "Lax" /\
    mode b = "Lax".
Proof.
  do 2 eexists.
  split; [lia |].
  split; [reflexivity |].
  split; [reflexivity |].
  split; [reflexivity |].
  split; [reflexivity |].
  eapply (strict_rows_precede_lax 8 13); [lia | reflexivity ..].
Defined.

Lemma table_lax_formats : forallb lax_is_python_or_both table = true.
Proof. vm_compute. reflexivity. Qed.

(** X4: a row that applies to 'JSON' alone is Strict, and a Lax row
    applies to 'Python' or to 'Python & JSON'. *)
Theorem json_only_rows_are_strict :
  forall r, In r table ->
    (input_format r = "JSON" -> mode r = "Strict") /\
    (mode r = "Lax" ->
     input_format r = "Python" \/ input_format r = "Python & JSON").
Proof.
  intros r Hr. split.
  - intro Hj.
    pose proof (proj1 (forallb_forall _ _) table_json_only r Hr) as H.
    unfold json_only_is_strict in H.
    rewrite (proj2 (String.eqb_eq _ _) Hj) in H. simpl in H.
    now apply String.eqb_eq.
  - intro Hm.
    pose proof (proj1 (forallb_forall _ _) table_lax_formats r Hr) as H.
    unfold lax_is_python_or_both in H.
    rewrite (proj2 (String.eqb_eq _ _) Hm) in H. simpl in H.
    apply orb_true_iff in H. destruct H as [H | H];
      apply String.eqb_eq in H; auto.
Qed.

Lemma json_only_rows_are_strict_witness :
  exists r1 r2,
    nth_error table 4 = Some r1 /\
    nth_error table 5 = Some r2 /\
    input_format r1 = "JSON" /\
    mode r1 = "Strict" /\
    mode r2 = "Lax" /\
    (input_format r2 = "Python" \/ input_format r2 = "Python & JSON").
Proof.
  do 2 eexists.
  split; [reflexivity |]. split; [reflexivity |].
  split; [reflexivity |].
  split.
  - refine (proj1 (json_only_rows_are_strict _
                     (@nth_error_In Row table 4 _ eq_refl)) eq_refl).
  - split; [reflexivity |].
    refine (proj2 (json_only_rows_are_strict _
                     (@nth_error_In Row table 5 _ eq_refl)) eq_refl).
Defined.

(** ** Examples and the types they illustrate *)

(** X5: where the input type of a row is a named class, every valid
    example of the row is an instance of that class ([bool] counting as
    [int], [datetime] as [date]). *)
Theorem valid_examples_are_instances :
  forall r n vs v,
    In r table ->
    input_type r = PyName n ->
    valid_examples r = Some vs ->
    In v vs ->
    py_isinstance v n = true.
Proof.
  intros r n vs v Hr Hn Hvs Hv.
  pose proof (proj1 (forallb_forall _ _) table_valid_typed r Hr) as H.
  unfold valid_examples_typed in H. rewrite Hn, Hvs in H.
  exact (proj1 (forallb_forall _ _) H v Hv).
Qed.

Lemma valid_examples_are_instances_witness :
  py_isinstance (VDatetime 2017 5 5 0 0 0 0) "datetime" = true.
Proof.
  eapply valid_examples_are_instances.
  - apply (nth_error_In table 27). reflexivity.
  - reflexivity.
  - reflexivity.
  - left. reflexivity.
Defined.

(** X6: every row that lists invalid examples also states a condition. *)
Theorem invalid_examples_have_condition :
  forall r ws,
    In r table ->
    invalid_examples r = Some ws ->
    exists c, condition r = Some c.
Proof.
  intros r ws Hr Hws.
  pose proof (proj1 (forallb_forall _ _) table_invalid_explained r Hr) as H.
  unfold invalid_examples_explained in H. rewrite Hws in H.
  destruct (condition r) as [c |]; [now exists c | discriminate].
Qed.

Lemma invalid_examples_have_condition_witness :
  exists r,
    nth_error table 7 = Some r /\
    exists c, condition r = Some c.
Proof.
  eexists. split; [reflexivity |].
  eapply invalid_examples_have_condition.
  - apply (nth_error_In table 7). reflexivity.
  - reflexivity.
Defined.

(** ** Schema kinds *)

(** X7: rows that agree on target type, mode and input format name the
    same schema kinds. *)
Theorem schemas_determined_by_rule :
  forall r1 r2,
    In r1 table -> In r2 table ->
    field_type r1 = field_type r2 ->
    mode r1 = mode r2 ->
    input_format r1 = input_format r2 ->
    core_schemas r1 = core_schemas r2.
Proof.
  intros r1 r2 H1 H2 Hf Hm Hc.
  pose proof (proj1 (forallb_forall _ _) table_schemas_by_rule r1 H1) as H.
  pose proof (proj1 (forallb_forall _ _) H r2 H2) as H'.
  cbv beta in H'.
  rewrite (proj2 (pyobj_eqb_eq _ _) Hf) in H'.
  rewrite (proj2 (String.eqb_eq _ _) Hm), (proj2 (String.eqb_eq _ _) Hc) in H'.
  simpl in H'. now apply schemas_eqb_eq.
Qed.

Lemma schemas_determined_by_rule_witness :
  exists r1 r2,
    nth_error table 99 = Some r1 /\
    nth_error table 100 = Some r2 /\
    core_schemas r1 = core_schemas r2.
Proof.
  do 2 eexists.
  split; [reflexivity |]. split; [reflexivity |].
  apply schemas_determined_by_rule.
  - apply (nth_error_In table 99). reflexivity.
  - apply (nth_error_In table 100). reflexivity.
  - reflexivity.
  - reflexivity.
  - reflexivity.
Defined.

(** ** Rows that mirror one another *)

(** X8: when a target type has a row for [str] input and a row for
    [bytes] input that both give valid examples, the [bytes] examples
    are the encoded [str] examples, one for one and in the same order;
    likewise for their invalid examples. *)
Theorem bytes_examples_mirror_str :
  forall rs rb,
    In rs table -> In rb table ->
    field_type rs = field_type rb ->
    input_type rs = PyName "str" ->
    input_type rb = PyName "bytes" ->
    (forall vs ws,
        valid_examples rs = Some vs -> valid_examples rb = Some ws ->
        Forall2 (fun v w => py_eq (encode v) w = true) vs ws) /\
    (forall vs ws,
        invalid_examples rs = Some vs -> invalid_examples rb = Some ws ->
        Forall2 (fun v w => py_eq (encode v) w = true) vs ws).
Proof.
  intros rs rb Hs Hb Hf His Hib. split; intros vs ws Hvs Hws.
  - exact (mirrored_spec encode "str" "bytes" valid_examples table
             table_bytes_mirror_valid rs rb vs ws Hs Hb Hf His Hib Hvs Hws).
  - exact (mirrored_spec encode "str" "bytes" invalid_examples table
             table_bytes_mirror_invalid rs rb vs ws Hs Hb Hf His Hib Hvs Hws).
Qed.

Lemma bytes_examples_mirror_str_witness :
  exists rs rb vs ws,
    nth_error table 12 = Some rs /\
    nth_error table 13 = Some rb /\
    invalid_examples rs = Some vs /\
    invalid_examples rb = Some ws /\
    Forall2 (fun v w => py_eq (encode v) w = true) vs ws.
Proof.
  do 4 eexists.
  split; [reflexivity |]. split; [reflexivity |].
  split; [reflexivity |]. split; [reflexivity |].
  refine (proj2 (bytes_examples_mirror_str _ _
                   (@nth_error_In Row table 12 _ eq_refl)
                   (@nth_error_In Row table 13 _ eq_refl)
                   eq_refl eq_refl eq_refl) _ _ eq_refl eq_refl).
Defined.

(** X9: when a target type has a row for [float] input and a row for
    [Decimal] input that both give valid examples, the two lists hold
    equal numbers, one for one and in the same order. *)
Theorem decimal_valid_examples_mirror_float :
  forall rf rd vs ws,
    In rf table -> In rd table ->
    field_type rf = field_type rd ->
    input_type rf = PyName "float" ->
    input_type rd = PyName "Decimal" ->
    valid_examples rf = Some vs ->
    valid_examples rd = Some ws ->
    Forall2 (fun v w => py_eq v w = true) vs ws.
Proof.
  exact (mirrored_spec (fun v => v) "float" "Decimal" valid_examples table
           table_decimal_mirror_valid).
Qed.

Lemma decimal_valid_examples_mirror_float_witness :
  exists rf rd vs ws,
    nth_error table 22 = Some rf /\
    nth_error table 23 = Some rd /\
    valid_examples rf = Some vs /\
    valid_examples rd = Some ws /\
    Forall2 (fun v w => py_eq v w = true) vs ws.
Proof.
  do 4 eexists.
  split; [reflexivity |]. split; [reflexivity |].
  split; [reflexivity |]. split; [reflexivity |].
  eapply decimal_valid_examples_mirror_float.
  - apply (nth_error_In table 22). reflexivity.
  - apply (nth_error_In table 23). reflexivity.
  - reflexivity.
  - reflexivity.
  - reflexivity.
  - reflexivity.
  - reflexivity.
Defined.
